(** * Oscilloscope interface: the instrument session and the waveform decoder

    A shallow embedding of the [Oscilloscope] class of
    [src/oscilloscope-interface.py]: the pyvisa session it owns, the SCPI
    commands it sends, the preamble it parses and the affine map that turns
    the raw sample block into time and voltage arrays.

    Numbers are modelled as the program has them: Python [float] and NumPy
    [float64] are IEEE-754 binary64 ([PrimFloat.float]); Python [int] is [Z];
    NumPy [int64] is [Z] with its wrap-around written out; a [uint8] sample is
    a [byte]. Text is ASCII, which is what pyvisa decodes replies to. Array
    arithmetic follows NumPy 2: a Python float combined with a uint8 or int64
    array gives float64, a Python int combined with an int64 array is cast
    to int64. *)

From Stdlib Require Import ZArith List String Ascii Bool Lia Floats.
From Stdlib.Strings Require Import Byte.
From Stdlib Require Import DecimalString.
Import ListNotations.

Local Open Scope string_scope.
Local Open Scope Z_scope.

Set Implicit Arguments.
Set Warnings "-inexact-float".

(** ** Python exceptions raised on the paths of the class *)

Inductive exn : Type :=
| Exception (msg : string)      (* [raise Exception(msg)] *)
| AttributeError                (* attribute access on [None] *)
| ValueError                    (* unpacking, [float(str)], [int(nan)] *)
| OverflowError                 (* [int(inf)], Python int too large for int64 *)
| ZeroDivisionError
| VisaIOError (code : Z).       (* raised inside pyvisa *)

Inductive result (A : Type) : Type :=
| Ok (a : A)
| Raise (e : exn).
Arguments Ok {A} a.
Arguments Raise {A} e.

Definition is_ok {A} (r : result A) : bool :=
  match r with Ok _ => true | Raise _ => false end.

(** ** The built-ins of Python and NumPy that the class calls *)

Module Py.

Definition chars (s : string) : list ascii := list_ascii_of_string s.
Definition text (l : list ascii) : string := string_of_list_ascii l.

Definition code (c : ascii) : Z := Z.of_nat (nat_of_ascii c).

Definition between (lo hi : Z) (c : ascii) : bool :=
  (lo <=? code c) && (code c <=? hi).

(** [str.isspace] on an ASCII character: TAB..CR, FS..US and space. *)
Definition is_space (c : ascii) : bool :=
  between 9 13 c || between 28 32 c.

(** [Py_ISSPACE], the whitespace [float(str)] skips: TAB..CR and space. *)
Definition is_c_space (c : ascii) : bool :=
  between 9 13 c || (code c =? 32).

Definition is_digit (c : ascii) : bool := between 48 57 c.

Definition digit_val (c : ascii) : Z := code c - 48.

Fixpoint drop_while (p : ascii -> bool) (l : list ascii) : list ascii :=
  match l with
  | c :: r => if p c then drop_while p r else l
  | [] => []
  end.

Definition trim (p : ascii -> bool) (l : list ascii) : list ascii :=
  rev (drop_while p (rev (drop_while p l))).

(** [s.strip()] *)
Definition strip (s : string) : string := text (trim is_space (chars s)).

(** [s.split(sep)] for a one-character separator: never the empty list. *)
Fixpoint split (sep : ascii) (s : string) : list string :=
  match s with
  | EmptyString => [EmptyString]
  | String c r =>
      if Ascii.eqb c sep then EmptyString :: split sep r
      else match split sep r with
           | h :: t => String c h :: t
           | [] => [String c EmptyString]
           end
  end.

(** [str(n)] and [f"{n}"] for an int. *)
Definition str_int (n : Z) : string := NilZero.string_of_int (Z.to_int n).

(** *** [float(str)]

    CPython's [PyFloat_FromString] on an ASCII string: underscores between
    digits are dropped, whitespace is trimmed, and what is left is a decimal
    literal, an infinity or a NaN; the decimal literal is rounded to the
    nearest binary64, ties to even. *)

Definition underscore : ascii := "_"%char.

(** [_Py_string_to_number_with_underscores]: [prev] is the character before. *)
Fixpoint drop_underscores (prev : ascii) (l : list ascii) : option (list ascii) :=
  match l with
  | [] => if Ascii.eqb prev underscore then None else Some []
  | c :: r =>
      if Ascii.eqb c underscore then
        if is_digit prev then drop_underscores c r else None
      else if Ascii.eqb prev underscore && negb (is_digit c) then None
      else option_map (cons c) (drop_underscores c r)
  end.

(** The longest prefix of digits, as a number with its length, and the rest. *)
Fixpoint digits (acc : Z) (len : Z) (l : list ascii) : Z * Z * list ascii :=
  match l with
  | c :: r => if is_digit c then digits (10 * acc + digit_val c) (len + 1) r
              else (acc, len, l)
  | [] => (acc, len, [])
  end.

Definition sign (l : list ascii) : bool * list ascii :=
  match l with
  | "-"%char :: r => (true, r)
  | "+"%char :: r => (false, r)
  | _ => (false, l)
  end.

Definition lower (c : ascii) : ascii :=
  if between 65 90 c then ascii_of_nat (nat_of_ascii c + 32) else c.

(** The exponent part [e[+-]ddd] when it is complete and ends the text. *)
Definition exponent (l : list ascii) : option Z :=
  match l with
  | [] => Some 0
  | c :: r =>
      if Ascii.eqb (lower c) "e"%char then
        let '(neg, r1) := sign r in
        match digits 0 0 r1 with
        | (e, n, []) => if 0 <? n then Some (if neg then - e else e) else None
        | _ => None
        end
      else None
  end.

(** A decimal literal as [(mantissa, number of mantissa digits, exponent)]:
    the value is [mantissa * 10 ^ exponent]. *)
Definition decimal (l : list ascii) : option (Z * Z) :=
  let '(int_part, n1, r1) := digits 0 0 l in
  let '(mant, n2, r2) :=
    match r1 with
    | "."%char :: r => digits int_part 0 r
    | _ => (int_part, 0, r1)
    end in
  if 0 <? n1 + n2 then
    match exponent r2 with
    | Some e => Some (mant, e - n2)
    | None => None
    end
  else None.

(** [n / d] rounded to the nearest binary64, ties to even ([0 <= n], [0 < d]):
    the quotient is taken with at least 64 bits and a sticky last bit. *)
Definition round_ratio (neg : bool) (n d : Z) : spec_float :=
  if n =? 0 then S754_zero neg
  else
    let k := Z.max 0 (Z.log2 d - Z.log2 n + 64) in
    let q := (n * 2 ^ k) / d in
    let sticky := if (n * 2 ^ k) mod d =? 0 then 0 else 1 in
    let m := 2 * q + sticky in
    binary_normalize prec emax (if neg then - m else m) (- (k + 1)) neg.

(** [m * 10 ^ e] as a binary64; exponents far outside the range of binary64
    are clamped first, which does not change the rounded value. *)
Definition of_decimal (neg : bool) (m e : Z) : float :=
  if m =? 0 then SF2Prim (S754_zero neg)
  else
    let width := Z.log2 m / 3 + 1 in
    if 400 <? e then SF2Prim (S754_infinity neg)
    else if e + width <? -400 then SF2Prim (S754_zero neg)
    else if 0 <=? e then SF2Prim (round_ratio neg (m * 10 ^ e) 1)
    else SF2Prim (round_ratio neg m (10 ^ (- e))).

Definition special (neg : bool) (l : list ascii) : option float :=
  let w := text (map lower l) in
  if String.eqb w "inf" || String.eqb w "infinity" then
    Some (if neg then neg_infinity else infinity)
  else if String.eqb w "nan" then Some nan
  else None.

(** [float(s)]: [None] stands for the [ValueError] it raises. *)
Definition float_of_str (s : string) : option float :=
  match drop_underscores Ascii.zero (chars s) with
  | None => None
  | Some l =>
      let '(neg, body) := sign (trim is_c_space l) in
      match decimal body with
      | Some (m, e) => Some (of_decimal neg m e)
      | None => special neg body
      end
  end.

(** [int(x)] for a float: truncation toward zero. *)
Definition int_of_float (x : float) : result Z :=
  match Prim2SF x with
  | S754_zero _ => Ok 0
  | S754_finite s m e =>
      let a := if 0 <=? e then Zpos m * 2 ^ e else Zpos m / 2 ^ (- e) in
      Ok (if s then - a else a)
  | S754_infinity _ => Raise OverflowError
  | S754_nan => Raise ValueError
  end.

(** The float64 nearest to an integer (NumPy's int64 to float64 cast). *)
Definition float_of_int (z : Z) : float :=
  SF2Prim (binary_normalize prec emax z 0 false).

(** [a / b] on Python floats. *)
Definition truediv (a b : float) : result float :=
  if PrimFloat.eqb b 0 then Raise ZeroDivisionError
  else Ok (a / b)%float.

(** *** [str.upper] and [int(str)], which the window calls *)

Definition upper_char (c : ascii) : ascii :=
  if between 97 122 c then ascii_of_nat (nat_of_ascii c - 32) else c.

(** [s.upper()] on ASCII text. *)
Definition upper (s : string) : string := text (map upper_char (chars s)).

(** The default of [sys.int_max_str_digits]. *)
Definition max_str_digits : Z := 4300.

(** The digits of an integer literal, single underscores allowed between
    them: the value, the number of digits and what follows. [prev] is the
    character before. *)
Fixpoint int_digits (prev : ascii) (acc n : Z) (l : list ascii)
  : option (Z * Z * list ascii) :=
  match l with
  | c :: r =>
      if is_digit c then int_digits c (10 * acc + digit_val c) (n + 1) r
      else if Ascii.eqb c underscore then
        if Ascii.eqb prev underscore then None else int_digits c acc n r
      else if Ascii.eqb prev underscore then None
      else Some (acc, n, l)
  | [] => if Ascii.eqb prev underscore then None else Some (acc, n, [])
  end.

(** [int(s)] in base 10: [None] stands for the [ValueError] it raises. *)
Definition int_of_str (s : string) : option Z :=
  let '(neg, body) := sign (drop_while is_c_space (chars s)) in
  match body with
  | [] => None
  | c :: _ =>
      if Ascii.eqb c underscore then None
      else
        match int_digits Ascii.zero 0 0 body with
        | Some (v, n, rest) =>
            match drop_while is_c_space rest with
            | [] =>
                if (0 <? n) && (n <=? max_str_digits)
                then Some (if neg then - v else v)
                else None
            | _ :: _ => None
            end
        | None => None
        end
  end.

End Py.

(** ** The boundary: pyvisa and the text Python prints *)

(** What [pyvisa] does with the bus. [device] is the state of the bus and of
    the instruments on it, [handle] an open resource. Opening, writing,
    querying and closing either return or raise, and may change the device
    either way. Creating the resource manager loads the VISA library and
    addresses no instrument: it returns or raises. *)
Record Transport : Type := {
  device : Type;
  handle : Type;
  (* [pyvisa.ResourceManager()] *)
  resource_manager : device -> result unit;
  open_resource : string -> device -> result handle * device;
  write : handle -> string -> device -> result unit * device;
  query : handle -> string -> device -> result string * device;
  (* [query_binary_values(cmd, datatype='B', container=np.array)] *)
  query_binary_values : handle -> string -> device -> result (list byte) * device;
  close : handle -> device -> result unit * device
}.

(** How Python and NumPy render the values that the class formats. *)
Record Render : Type := {
  str_float : float -> string;         (* a float in an f-string *)
  str_list : list string -> string;    (* [str] of a list of [str] *)
  str_bytes : list byte -> string;     (* [str] of a uint8 array *)
  str_floats : list float -> string    (* [str] of a float64 array *)
}.

(** The calls that reach the transport, in the order they are made. *)
Inductive call : Type :=
| OpenResource (name : string)
| Write (cmd : string)
| Query (cmd : string)
| QueryBinaryValues (cmd : string)
| Close.

(** What a method returns. *)
Inductive value : Type :=
| VNone
| VStr (s : string)
| VTuple (time voltage : list float).

(** The preamble after line 125: the first four fields stay text. *)
Record preamble : Type := {
  format_code : string;
  type_code : string;
  points : string;
  count : string;
  x_increment : float;
  x_origin : float;
  x_reference : Z;
  y_increment : float;
  y_origin : float;
  y_reference : Z
}.

(** ** The waveform arithmetic (lines 141 to 149) *)

Definition int64_min : Z := - 2 ^ 63.
Definition int64_max : Z := 2 ^ 63 - 1.

Definition in_int64 (z : Z) : bool := (int64_min <=? z) && (z <=? int64_max).

(** int64 arithmetic wraps around. *)
Definition wrap64 (z : Z) : Z := (z + 2 ^ 63) mod 2 ^ 64 - 2 ^ 63.

Definition sample (d : byte) : float := Py.float_of_int (Z.of_N (Byte.to_N d)).

(** [((data - 130.0) / 25.0) * adjusted_vertical_scale], element by element. *)
Definition volt (adjusted : float) (d : byte) : float :=
  ((sample d - 130.0) / 25.0 * adjusted)%float.

Definition voltages (data : list byte) (adjusted : float) : list float :=
  map (volt adjusted) data.

(** [np.arange(n)] *)
Definition arange (n : nat) : list Z := map Z.of_nat (seq 0 n).

Definition tick (x_ref : Z) (x_inc x_orig : float) (i : Z) : float :=
  (Py.float_of_int (wrap64 (i - x_ref)) * x_inc + x_orig)%float.

(** [(np.arange(n) - x_reference) * x_increment + x_origin]: the Python int
    is cast to int64, which NumPy refuses with [OverflowError] when it does
    not fit; the int64 difference is then cast to float64. *)
Definition time_axis (n : nat) (p : preamble) : result (list float) :=
  if in_int64 (x_reference p) then
    Ok (map (tick (x_reference p) (x_increment p) (x_origin p)) (arange n))
  else Raise OverflowError.

(** The decoder: lines 141 to 149 without their prints, [(time, voltage)]. *)
Definition decode (raw : list byte) (p : preamble) (vertical_scale probe_attenuation : float)
  : result (list float * list float) :=
  match Py.truediv vertical_scale probe_attenuation with
  | Raise e => Raise e
  | Ok adjusted =>
      let voltage := voltages raw adjusted in
      match time_axis (List.length raw) p with
      | Raise e => Raise e
      | Ok time => Ok (time, voltage)
      end
  end.

(** ** The preamble (lines 110 to 125) *)

Definition to_float (s : string) : result float :=
  match Py.float_of_str s with
  | Some x => Ok x
  | None => Raise ValueError
  end.

(** [int(float(s))] *)
Definition to_int (s : string) : result Z :=
  match to_float s with
  | Ok x => Py.int_of_float x
  | Raise e => Raise e
  end.

Definition preamble_fields (reply : string) : list string :=
  Py.split ","%char (Py.strip reply).

Definition rbind {A B} (r : result A) (k : A -> result B) : result B :=
  match r with Ok a => k a | Raise e => Raise e end.

(** Unpacking [preamble_fields[:10]] into ten names, then the six conversions
    in the order of the source. *)
Definition parse_preamble (fields : list string) : result preamble :=
  match firstn 10 fields with
  | [fc; tc; pts; cnt; xi; xo; xr; yi; yo; yr] =>
      rbind (to_float xi) (fun xi' =>
      rbind (to_float xo) (fun xo' =>
      rbind (to_int xr) (fun xr' =>
      rbind (to_float yi) (fun yi' =>
      rbind (to_float yo) (fun yo' =>
      rbind (to_int yr) (fun yr' =>
      Ok {| format_code := fc; type_code := tc; points := pts; count := cnt;
            x_increment := xi'; x_origin := xo'; x_reference := xr';
            y_increment := yi'; y_origin := yo'; y_reference := yr' |}))))))
  | _ => Raise ValueError
  end.

(** Field [i] of the preamble goes through its conversion: [int(float(_))]
    for the two references, [float(_)] for the other converted fields. *)
Definition field_converts (i : nat) (f : string) : bool :=
  match i with
  | 6%nat | 9%nat => is_ok (to_int f)
  | _ => is_ok (to_float f)
  end.

(** A field list that is too short, or one of whose fields 4 to 9 does not
    convert. *)
Definition malformed (fields : list string) : Prop :=
  (List.length fields < 10)%nat \/
  exists i f, (4 <= i <= 9)%nat /\ nth_error fields i = Some f /\
              field_converts i f = false.

(** ** The session: class [Oscilloscope] *)

Section Session.

Variable T : Transport.
Variable R : Render.

(** The object ([resource_name], [inst]) together with the world it acts on:
    the device behind [self.rm], the transport calls made so far and the
    lines printed so far, oldest first. *)
Record state : Type := {
  resource_name : string;
  inst : option (handle T);
  dev : device T;
  calls : list call;
  stdout : list string
}.

(** The object that [Oscilloscope(resource_name)] returns, lines 27 to 29. *)
Definition init (name : string) (d : device T) : state :=
  {| resource_name := name; inst := None; dev := d; calls := []; stdout := [] |}.

Definition set_inst (i : option (handle T)) (s : state) : state :=
  {| resource_name := resource_name s; inst := i; dev := dev s;
     calls := calls s; stdout := stdout s |}.

(** The state after a transport call [c] that left the device as [d]. *)
Definition called (c : call) (d : device T) (s : state) : state :=
  {| resource_name := resource_name s; inst := inst s; dev := d;
     calls := calls s ++ [c]; stdout := stdout s |}.

Definition printed (line : string) (s : state) : state :=
  {| resource_name := resource_name s; inst := inst s; dev := dev s;
     calls := calls s; stdout := stdout s ++ [line] |}.

(** A method body: it returns or raises, and the effects made before an
    exception stay. *)
Definition M (A : Type) : Type := state -> result A * state.

Definition ret {A} (a : A) : M A := fun s => (Ok a, s).

Definition raise {A} (e : exn) : M A := fun s => (Raise e, s).

Definition bind {A B} (m : M A) (k : A -> M B) : M B :=
  fun s =>
    match m s with
    | (Ok a, s1) => k a s1
    | (Raise e, s1) => (Raise e, s1)
    end.

Notation "x <- m ;; k" := (bind m (fun x => k))
  (at level 61, m at next level, right associativity).
Notation "m ;; k" := (bind m (fun _ => k))
  (at level 61, right associativity).

Definition lift {A} (r : result A) : M A := fun s => (r, s).

Definition print (line : string) : M unit := fun s => (Ok tt, printed line s).

Definition assign_inst (i : option (handle T)) : M unit :=
  fun s => (Ok tt, set_inst i s).

(** [self.rm.open_resource(self.resource_name)] *)
Definition rm_open_resource : M (handle T) :=
  fun s =>
    let (r, d) := open_resource T (resource_name s) (dev s) in
    (r, called (OpenResource (resource_name s)) d s).

(** A method of [self.inst]: on [None] the attribute lookup raises before
    anything is sent. *)
Definition on_inst {A} (c : call) (f : handle T -> device T -> result A * device T) : M A :=
  fun s =>
    match inst s with
    | None => (Raise AttributeError, s)
    | Some h => let (r, d) := f h (dev s) in (r, called c d s)
    end.

Definition inst_write (cmd : string) : M unit :=
  on_inst (Write cmd) (fun h => write T h cmd).

Definition inst_query (cmd : string) : M string :=
  on_inst (Query cmd) (fun h => query T h cmd).

Definition inst_query_binary_values (cmd : string) : M (list byte) :=
  on_inst (QueryBinaryValues cmd) (fun h => query_binary_values T h cmd).

Definition inst_close : M unit :=
  on_inst Close (fun h => close T h).

(** Lines 31 to 37. *)
Definition connect : M value :=
  h <- rm_open_resource ;;
  assign_inst (Some h) ;;
  idn <- inst_query "*IDN?" ;;
  print ("Connected to " ++ idn) ;;
  ret VNone.

(** Lines 39 to 46. *)
Definition disconnect : M value :=
  fun s =>
    match inst s with
    | Some _ =>
        (inst_close ;;
         assign_inst None ;;
         print "Disconnected from oscilloscope." ;;
         ret VNone) s
    | None => ret VNone s
    end.

(** Lines 48 to 54. *)
Definition set_channel (channel : Z) : M value :=
  inst_write (":WAV:SOUR CHAN" ++ Py.str_int channel) ;;
  ret VNone.

(** Lines 56 to 62. *)
Definition set_timebase (time_per_div : float) : M value :=
  inst_write (":TIM:SCAL " ++ str_float R time_per_div) ;;
  ret VNone.

(** Lines 64 to 71. *)
Definition set_voltage_scale (channel : Z) (volts_per_div : float) : M value :=
  inst_write (":CHAN" ++ Py.str_int channel ++ ":SCAL " ++ str_float R volts_per_div) ;;
  ret VNone.

(** Lines 73 to 85. *)
Definition set_trigger (mode : string) (source : Z) (slope : string) (level : float)
  : M value :=
  inst_write (":TRIG:MODE " ++ mode) ;;
  inst_write (":TRIG:EDGE:SOUR CHAN" ++ Py.str_int source) ;;
  inst_write (":TRIG:EDGE:SLOP " ++ slope) ;;
  inst_write (":TRIG:LEV CHAN" ++ Py.str_int source ++ "," ++ str_float R level) ;;
  ret VNone.

(** Lines 94 to 106: the guard, the three set-up commands and the format
    query, whose reply is only printed. *)
Definition select_source (channel : Z) : M unit :=
  (fun s =>
     match inst s with
     | None => raise (Exception "Oscilloscope not connected.") s
     | Some _ => ret tt s
     end) ;;
  inst_write (":WAV:SOUR CHAN" ++ Py.str_int channel) ;;
  inst_write ":WAV:FORM BYTE" ;;
  inst_write ":WAV:MODE NORMAL" ;;
  actual_format <- inst_query ":WAV:FORM?" ;;
  print ("Data format set to: " ++ Py.strip actual_format).

(** Lines 109 to 128. *)
Definition read_preamble : M preamble :=
  reply <- inst_query ":WAV:PRE?" ;;
  let fields := preamble_fields reply in
  print ("Preamble Fields: " ++ str_list R fields) ;;
  p <- lift (parse_preamble fields) ;;
  print ("x_increment: " ++ str_float R (x_increment p)
          ++ ", x_origin: " ++ str_float R (x_origin p)
          ++ ", x_reference: " ++ Py.str_int (x_reference p)) ;;
  print ("y_increment: " ++ str_float R (y_increment p)
          ++ ", y_origin: " ++ str_float R (y_origin p)
          ++ ", y_reference: " ++ Py.str_int (y_reference p)) ;;
  ret p.

(** Lines 131 to 133. *)
Definition read_samples : M (list byte) :=
  data <- inst_query_binary_values ":WAV:DATA?" ;;
  print ("Raw data sample: " ++ str_bytes R (firstn 10 data)) ;;
  ret data.

(** Lines 136 to 138. *)
Definition read_scale (channel : Z) : M (float * float) :=
  scale_reply <- inst_query (":CHAN" ++ Py.str_int channel ++ ":SCAL?") ;;
  vertical_scale <- lift (to_float scale_reply) ;;
  probe_reply <- inst_query (":CHAN" ++ Py.str_int channel ++ ":PROB?") ;;
  probe_attenuation <- lift (to_float probe_reply) ;;
  print ("Vertical scale: " ++ str_float R vertical_scale
          ++ ", Probe attenuation: " ++ str_float R probe_attenuation) ;;
  ret (vertical_scale, probe_attenuation).

(** Lines 141 to 152. *)
Definition convert (p : preamble) (data : list byte)
  (vertical_scale probe_attenuation : float) : M value :=
  adjusted_vertical_scale <- lift (Py.truediv vertical_scale probe_attenuation) ;;
  let voltage := voltages data adjusted_vertical_scale in
  print ("Voltage sample: " ++ str_floats R (firstn 10 voltage)) ;;
  time <- lift (time_axis (List.length data) p) ;;
  print "Waveform data retrieved and processed." ;;
  ret (VTuple time voltage).

(** Lines 87 to 152. *)
Definition get_waveform (channel : Z) : M value :=
  select_source channel ;;
  p <- read_preamble ;;
  data <- read_samples ;;
  sp <- read_scale channel ;;
  convert p data (fst sp) (snd sp).

End Session.

(** ** A bench instrument

    A scripted transport to run the class on: one instrument that can be
    absent from the bus or stop answering, and that replies with fixed text. *)

Module Bench.

Record bench : Type := {
  present : bool;          (* the resource can be opened *)
  answering : bool;        (* writes and queries get through *)
  identity : string;
  preamble_reply : string;
  block : list byte;
  scale_reply : string;
  probe_reply : string;
  sessions : nat           (* handles open at the moment *)
}.

Definition VI_ERROR_RSRC_NFOUND : Z := -1073807343.
Definition VI_ERROR_TMO : Z := -1073807339.

Definition ends_with (suffix s : string) : bool :=
  String.prefix (Py.text (rev (Py.chars suffix))) (Py.text (rev (Py.chars s))).

Definition newline : string := String (ascii_of_nat 10) EmptyString.

Definition reply (cmd : string) (b : bench) : string :=
  if String.eqb cmd "*IDN?" then identity b
  else if String.eqb cmd ":WAV:FORM?" then "BYTE" ++ newline
  else if String.eqb cmd ":WAV:PRE?" then preamble_reply b
  else if ends_with ":SCAL?" cmd then scale_reply b
  else if ends_with ":PROB?" cmd then probe_reply b
  else "".

Definition opened (b : bench) : bench :=
  {| present := present b; answering := answering b; identity := identity b;
     preamble_reply := preamble_reply b; block := block b;
     scale_reply := scale_reply b; probe_reply := probe_reply b;
     sessions := S (sessions b) |}.

Definition closed (b : bench) : bench :=
  {| present := present b; answering := answering b; identity := identity b;
     preamble_reply := preamble_reply b; block := block b;
     scale_reply := scale_reply b; probe_reply := probe_reply b;
     sessions := pred (sessions b) |}.

Definition talk {A} (a : A) (b : bench) : result A * bench :=
  if answering b then (Ok a, b) else (Raise (VisaIOError VI_ERROR_TMO), b).

Definition transport : Transport :=
  {| device := bench;
     handle := unit;
     resource_manager := fun _ => Ok tt;
     open_resource := fun _ b =>
       if present b then (Ok tt, opened b)
       else (Raise (VisaIOError VI_ERROR_RSRC_NFOUND), b);
     write := fun _ _ b => talk tt b;
     query := fun _ cmd b => talk (reply cmd b) b;
     query_binary_values := fun _ _ b => talk (block b) b;
     close := fun _ b => (Ok tt, closed b) |}.

(** The same bench behind a driver that fails to close a session. *)
Definition VI_ERROR_CLOSING_FAILED : Z := -1073807338.

Definition jammed : Transport :=
  {| device := bench;
     handle := unit;
     resource_manager := fun _ => Ok tt;
     open_resource := open_resource transport;
     write := write transport;
     query := query transport;
     query_binary_values := query_binary_values transport;
     close := fun _ b => (Raise (VisaIOError VI_ERROR_CLOSING_FAILED), b) |}.


(** A renderer that elides the numbers. *)
Definition render : Render :=
  {| str_float := fun _ => "<float>";
     str_list := fun l =>
       "[" ++ String.concat ", " (map (fun f => "'" ++ f ++ "'") l) ++ "]";
     str_bytes := fun _ => "<uint8 array>";
     str_floats := fun _ => "<float64 array>" |}.

Definition u8 (n : N) : byte :=
  match Byte.of_N n with Some b => b | None => x00 end.

(** An instrument that holds three samples around mid-scale. *)
Definition scope : bench :=
  {| present := true; answering := true;
     identity := "RIGOL TECHNOLOGIES,DS1054Z,DS1ZA000000000,00.04.04";
     preamble_reply := "0,0,3,1,1e-6,0,0,0.04,0,127" ++ newline;
     block := map u8 [130; 155; 105]%N;
     scale_reply := "1.0";
     probe_reply := "1.0";
     sessions := 0 |}.

Definition with_preamble (text : string) (b : bench) : bench :=
  {| present := present b; answering := answering b; identity := identity b;
     preamble_reply := text; block := block b;
     scale_reply := scale_reply b; probe_reply := probe_reply b;
     sessions := sessions b |}.

Definition with_probe (text : string) (b : bench) : bench :=
  {| present := present b; answering := answering b; identity := identity b;
     preamble_reply := preamble_reply b; block := block b;
     scale_reply := scale_reply b; probe_reply := text;
     sessions := sessions b |}.

(** The same instrument when it no longer answers. *)
Definition mute (b : bench) : bench :=
  {| present := present b; answering := false; identity := identity b;
     preamble_reply := preamble_reply b; block := block b;
     scale_reply := scale_reply b; probe_reply := probe_reply b;
     sessions := sessions b |}.

(** The same instrument unplugged. *)
Definition unplugged (b : bench) : bench :=
  {| present := false; answering := false; identity := identity b;
     preamble_reply := preamble_reply b; block := block b;
     scale_reply := scale_reply b; probe_reply := probe_reply b;
     sessions := sessions b |}.

Definition address : string := "USB0::0x1AB1::0x04CE::DS1ZA000000000::INSTR".

(** The preamble that [scope] sends, once parsed. *)
Definition header : preamble :=
  {| format_code := "0"; type_code := "0"; points := "3"; count := "1";
     x_increment := 1e-6; x_origin := 0; x_reference := 0;
     y_increment := 0.04; y_origin := 0; y_reference := 127 |}.

(** A fresh object on bench [b], and the same object once connected. *)
Definition fresh (b : bench) : state transport := init transport address b.

Definition connected (b : bench) : state transport :=
  snd (connect (fresh b)).

End Bench.

(** ** The commands of a method *)

Section Commands.

Variable T : Transport.
Variable R : Render.

Local Open Scope list_scope.

(** Whatever the outcome of [m], the transport calls it makes are the first
    few of [l], in order, and all of [l] when it returns; the object keeps
    its resource name and its handle. *)
Definition within {A} (l : list call) (m : M T A) : Prop :=
  forall s r s', m s = (r, s') ->
    resource_name s' = resource_name s /\
    inst s' = inst s /\
    (exists n, calls s' = calls s ++ firstn n l) /\
    (is_ok r = true -> calls s' = calls s ++ l).

(** The calls of [get_waveform], lines 98 to 137. *)
Definition waveform_calls (channel : Z) : list call :=
  [Write (":WAV:SOUR CHAN" ++ Py.str_int channel);
   Write ":WAV:FORM BYTE";
   Write ":WAV:MODE NORMAL";
   Query ":WAV:FORM?";
   Query ":WAV:PRE?";
   QueryBinaryValues ":WAV:DATA?";
   Query (":CHAN" ++ Py.str_int channel ++ ":SCAL?");
   Query (":CHAN" ++ Py.str_int channel ++ ":PROB?")].

(** The calls of [set_trigger], lines 82 to 85. *)
Definition trigger_calls (mode : string) (source : Z) (slope : string) (level : float)
  : list call :=
  [Write (":TRIG:MODE " ++ mode);
   Write (":TRIG:EDGE:SOUR CHAN" ++ Py.str_int source);
   Write (":TRIG:EDGE:SLOP " ++ slope);
   Write (":TRIG:LEV CHAN" ++ Py.str_int source ++ "," ++ str_float R level)].

End Commands.

(** A float that is neither an infinity nor a NaN. *)
Definition finite (x : float) : bool :=
  match Prim2SF x with
  | S754_zero _ | S754_finite _ _ _ => true
  | S754_infinity _ | S754_nan => false
  end.

(** The number of commas in a text. *)
Fixpoint commas (s : string) : nat :=
  match s with
  | EmptyString => 0%nat
  | String c r => if Ascii.eqb c ","%char then S (commas r) else commas r
  end.

(** ** The window: class [MainWindow]

    The four slots that drive the instrument; the color picker, which only
    redraws, is left out. The widgets are what Qt shows and what the user
    has entered; a message box is recorded when it is shown, with the
    exception whose text it displays. *)

(** What the canvas holds. *)
Inductive figure : Type :=
| Axes                                            (* as [MplCanvas] builds it: no line *)
| Line (t v : list float) (color : string)        (* lines 442 to 475 have all returned *)
| Unfinished (t v : list float) (color : string). (* one of them raised *)

(** What matplotlib does with lines 442 to 475, given the canvas, the two
    arrays and the color: the calls all return, or one of them raises. *)
Record Plotting : Type := {
  plots : figure -> list float -> list float -> string -> result unit
}.

Section Window.

Variable T : Transport.
Variable R : Render.
Variable Mpl : Plotting.

(** What the input widgets hold when a slot runs. *)
Record inputs : Type := {
  resource_input : string;          (* [QLineEdit.text()] *)
  channel_select : string;          (* [QComboBox.currentText()] *)
  timebase_input : float;           (* [QDoubleSpinBox.value()] *)
  voltage_input : float;
  trigger_mode_select : string;
  trigger_source_select : string;
  trigger_slope_select : string;
  trigger_level_input : float
}.

(** The status line and the enabled state of the four buttons. *)
Record controls : Type := {
  status_label : string;
  disconnect_button : bool;
  apply_settings_button : bool;
  get_data_button : bool;
  color_button : bool
}.

Inductive dialog : Type :=
| Warning (title text : string)     (* [QMessageBox.warning] *)
| Critical (title : string) (e : exn). (* [QMessageBox.critical(.., str(e))] *)

(** The window and the world it acts on. [oscilloscope] is the object held,
    with its [resource_name] and [inst]; [canvas] is what the axes hold;
    [bus], [sent] and [console] are the device, the transport calls and the
    printed lines. *)
Record window : Type := {
  oscilloscope : option (string * option (handle T));
  time : option (list float);
  voltage : option (list float);
  waveform_color : string;
  widgets : inputs;
  panel : controls;
  canvas : figure;
  dialogs : list dialog;
  bus : device T;
  sent : list call;
  console : list string
}.

(** Lines 200 to 344: the window as it opens, on a bus in state [d]. *)
Definition main_window (d : device T) : window :=
  {| oscilloscope := None; time := None; voltage := None;
     waveform_color := "yellow";
     widgets :=
       {| resource_input := "USB0::0x1AB1::0x0517::DS1ZE242906834::INSTR";
          channel_select := "1";
          timebase_input := 200e-6;
          voltage_input := 1.0;
          trigger_mode_select := "EDGE";
          trigger_source_select := "1";
          trigger_slope_select := "Positive";
          trigger_level_input := 1.5 |};
     panel :=
       {| status_label := "Status: Disconnected";
          disconnect_button := false; apply_settings_button := false;
          get_data_button := false; color_button := false |};
     canvas := Axes; dialogs := []; bus := d; sent := []; console := [] |}.

(** The object [o] on the world of [w], as the methods of the class see it. *)
Definition session (o : string * option (handle T)) (w : window) : state T :=
  {| resource_name := fst o; inst := snd o;
     dev := bus w; calls := sent w; stdout := console w |}.

(** The window once a method has left the object and the world as [s]. *)
Definition after (s : state T) (w : window) : window :=
  {| oscilloscope := Some (resource_name s, inst s);
     time := time w; voltage := voltage w; waveform_color := waveform_color w;
     widgets := widgets w; panel := panel w; canvas := canvas w;
     dialogs := dialogs w;
     bus := dev s; sent := calls s; console := stdout s |}.

Definition set_oscilloscope (o : option (string * option (handle T))) (w : window)
  : window :=
  {| oscilloscope := o;
     time := time w; voltage := voltage w; waveform_color := waveform_color w;
     widgets := widgets w; panel := panel w; canvas := canvas w;
     dialogs := dialogs w; bus := bus w; sent := sent w; console := console w |}.

Definition set_waveform (t v : list float) (w : window) : window :=
  {| oscilloscope := oscilloscope w;
     time := Some t; voltage := Some v; waveform_color := waveform_color w;
     widgets := widgets w; panel := panel w; canvas := canvas w;
     dialogs := dialogs w; bus := bus w; sent := sent w; console := console w |}.

Definition set_panel (c : controls) (w : window) : window :=
  {| oscilloscope := oscilloscope w;
     time := time w; voltage := voltage w; waveform_color := waveform_color w;
     widgets := widgets w; panel := c; canvas := canvas w;
     dialogs := dialogs w; bus := bus w; sent := sent w; console := console w |}.

Definition drawn (t v : list float) (w : window) : window :=
  {| oscilloscope := oscilloscope w;
     time := time w; voltage := voltage w; waveform_color := waveform_color w;
     widgets := widgets w; panel := panel w;
     canvas := Line t v (waveform_color w);
     dialogs := dialogs w; bus := bus w; sent := sent w;
     console := console w ++ ["Waveform plotted."] |}.

Definition spoiled (t v : list float) (w : window) : window :=
  {| oscilloscope := oscilloscope w;
     time := time w; voltage := voltage w; waveform_color := waveform_color w;
     widgets := widgets w; panel := panel w;
     canvas := Unfinished t v (waveform_color w);
     dialogs := dialogs w; bus := bus w; sent := sent w;
     console := console w |}.

Definition shown (d : dialog) (w : window) : window :=
  {| oscilloscope := oscilloscope w;
     time := time w; voltage := voltage w; waveform_color := waveform_color w;
     widgets := widgets w; panel := panel w; canvas := canvas w;
     dialogs := dialogs w ++ [d]; bus := bus w; sent := sent w;
     console := console w |}.

(** A slot body: it returns or raises, and what it did before raising stays. *)
Definition W (A : Type) : Type := window -> result A * window.

Definition wret {A} (a : A) : W A := fun w => (Ok a, w).

Definition wbind {A B} (m : W A) (k : A -> W B) : W B :=
  fun w =>
    match m w with
    | (Ok a, w1) => k a w1
    | (Raise e, w1) => (Raise e, w1)
    end.

Notation "x <~ m ;; k" := (wbind m (fun x => k))
  (at level 61, m at next level, right associativity).
Notation "m ~~ k" := (wbind m (fun _ => k))
  (at level 61, right associativity).

(** [try: body except Exception as e: handler(e)] *)
Definition try_except (body : W unit) (handler : exn -> W unit) : W unit :=
  fun w =>
    match body w with
    | (Ok u, w1) => (Ok u, w1)
    | (Raise e, w1) => handler e w1
    end.

Definition update (f : window -> window) : W unit := fun w => (Ok tt, f w).

(** [int(text)] *)
Definition to_channel (text : string) : W Z :=
  fun w =>
    match Py.int_of_str text with
    | Some n => (Ok n, w)
    | None => (Raise ValueError, w)
    end.

(** A method call on [self.oscilloscope]. *)
Definition on_oscilloscope {A} (m : M T A) : W A :=
  fun w =>
    match oscilloscope w with
    | None => (Raise AttributeError, w)
    | Some o => let (r, s) := m (session o w) in (r, after s w)
    end.

Definition with_status (text : string) (c : controls) : controls :=
  {| status_label := text;
     disconnect_button := disconnect_button c;
     apply_settings_button := apply_settings_button c;
     get_data_button := get_data_button c; color_button := color_button c |}.

(** [setEnabled(True)] on the four buttons, lines 367 to 370. *)
Definition with_buttons_enabled (c : controls) : controls :=
  {| status_label := status_label c;
     disconnect_button := true; apply_settings_button := true;
     get_data_button := true; color_button := true |}.

(** Lines 400 to 404. *)
Definition slope_code (text : string) : string :=
  if String.eqb (Py.upper text) "POSITIVE" then "POS" else "NEG".

(** Lines 386 to 417. *)
Definition apply_settings : W unit :=
  fun w =>
    match oscilloscope w with
    | None => update (shown (Warning "Warning" "Oscilloscope not connected.")) w
    | Some _ =>
        try_except
          (channel <~ to_channel (channel_select (widgets w)) ;;
           let timebase := timebase_input (widgets w) in
           let voltage_scale := voltage_input (widgets w) in
           let trigger_mode := trigger_mode_select (widgets w) in
           trigger_source <~ to_channel (trigger_source_select (widgets w)) ;;
           let trigger_slope := slope_code (trigger_slope_select (widgets w)) in
           let trigger_level := trigger_level_input (widgets w) in
           on_oscilloscope (set_channel channel) ~~
           on_oscilloscope (set_timebase R timebase) ~~
           on_oscilloscope (set_voltage_scale R channel voltage_scale) ~~
           on_oscilloscope
             (set_trigger R trigger_mode trigger_source trigger_slope trigger_level) ~~
           wret tt)
          (fun e => update (shown (Critical "Error" e)))
          w
    end.

(** [self.oscilloscope = Oscilloscope(resource_name)], line 363 with lines
    27 to 29: the constructor creates the resource manager, and the
    assignment is made when it returns. *)
Definition new_oscilloscope (resource_name : string) : W unit :=
  fun w =>
    match resource_manager T (bus w) with
    | Ok _ => (Ok tt, set_oscilloscope (Some (resource_name, None)) w)
    | Raise e => (Raise e, w)
    end.

(** Lines 356 to 375. *)
Definition connect_oscilloscope : W unit :=
  fun w =>
    let resource_name := resource_input (widgets w) in
    try_except
      (new_oscilloscope resource_name ~~
       on_oscilloscope (connect (T := T)) ~~
       update (fun w1 =>
         set_panel (with_status ("Status: Connected to " ++ resource_name) (panel w1)) w1) ~~
       update (fun w1 => set_panel (with_buttons_enabled (panel w1)) w1) ~~
       apply_settings)
      (fun e => update (shown (Critical "Connection Error" e)))
      w.

(** Lines 377 to 384. *)
Definition disconnect_oscilloscope : W unit :=
  fun w =>
    match oscilloscope w with
    | None => wret tt w
    | Some _ =>
        (on_oscilloscope (disconnect (T := T)) ~~
         update (set_oscilloscope None) ~~
         update (fun w1 => set_panel (with_status "Status: Disconnected" (panel w1)) w1))
        w
    end.

(** Lines 434 to 476: the axes are cleared, the line is drawn in the current
    color, the axes are decorated and the figure is rendered; the last line
    prints when all of that has returned. *)
Definition plot_waveform (t v : list float) : W unit :=
  fun w =>
    match plots Mpl (canvas w) t v (waveform_color w) with
    | Ok _ => (Ok tt, drawn t v w)
    | Raise e => (Raise e, spoiled t v w)
    end.

(** Lines 419 to 432. The method of the class returns a pair or raises. *)
Definition window_get_waveform : W unit :=
  fun w =>
    match oscilloscope w with
    | None => update (shown (Warning "Warning" "Oscilloscope not connected.")) w
    | Some _ =>
        try_except
          (channel <~ to_channel (channel_select (widgets w)) ;;
           pair <~ on_oscilloscope (get_waveform R channel) ;;
           match pair with
           | VTuple t v =>
               update (set_waveform t v) ~~ plot_waveform t v
           | _ => fun w1 => (Raise ValueError, w1)
           end)
          (fun e => update (shown (Critical "Error" e)))
          w
    end.

(** The seven commands of [apply_settings], lines 408 to 412. *)
Definition settings_calls (channel : Z) (i : inputs) (source : Z) : list call :=
  [Write (":WAV:SOUR CHAN" ++ Py.str_int channel);
   Write (":TIM:SCAL " ++ str_float R (timebase_input i));
   Write (":CHAN" ++ Py.str_int channel ++ ":SCAL " ++ str_float R (voltage_input i));
   Write (":TRIG:MODE " ++ trigger_mode_select i);
   Write (":TRIG:EDGE:SOUR CHAN" ++ Py.str_int source);
   Write (":TRIG:EDGE:SLOP " ++ slope_code (trigger_slope_select i));
   Write (":TRIG:LEV CHAN" ++ Py.str_int source ++ ","
          ++ str_float R (trigger_level_input i))].

End Window.

Section WindowCommands.

Variable T : Transport.

Local Open Scope list_scope.

(** Whatever the outcome of the slot body [m], it changes nothing of the
    window but the world: the transport calls it makes are the first few of
    [l], in order, and all of [l] when it returns. *)
Definition sends_only {A} (l : list call) (m : W T A) : Prop :=
  forall w r w', m w = (r, w') ->
    oscilloscope w' = oscilloscope w /\
    time w' = time w /\ voltage w' = voltage w /\
    waveform_color w' = waveform_color w /\
    widgets w' = widgets w /\ panel w' = panel w /\
    canvas w' = canvas w /\ dialogs w' = dialogs w /\
    (exists n, sent w' = sent w ++ firstn n l) /\
    (is_ok r = true -> sent w' = sent w ++ l).

End WindowCommands.

(** ** The window on the bench *)

Module Desk.

(** The window as it opens in front of bench [b], and after a click on
    Connect. *)
Definition opened (b : Bench.bench) : window Bench.transport :=
  main_window Bench.transport b.

Definition connected (b : Bench.bench) : window Bench.transport :=
  snd (connect_oscilloscope Bench.render (opened b)).

(** A matplotlib that draws, and one whose renderer gives up. *)
Definition matplotlib : Plotting := {| plots := fun _ _ _ _ => Ok tt |}.


(** The user picks another entry of the channel box. *)
Definition pick_channel (text : string) (w : window Bench.transport)
  : window Bench.transport :=
  {| oscilloscope := oscilloscope w; time := time w; voltage := voltage w;
     waveform_color := waveform_color w;
     widgets :=
       {| resource_input := resource_input (widgets w);
          channel_select := text;
          timebase_input := timebase_input (widgets w);
          voltage_input := voltage_input (widgets w);
          trigger_mode_select := trigger_mode_select (widgets w);
          trigger_source_select := trigger_source_select (widgets w);
          trigger_slope_select := trigger_slope_select (widgets w);
          trigger_level_input := trigger_level_input (widgets w) |};
     panel := panel w; canvas := canvas w; dialogs := dialogs w;
     bus := bus w; sent := sent w; console := console w |}.

End Desk.

(** * Properties *)

(** ** The decoder *)

Lemma wrap64_id z : int64_min <= z <= int64_max -> wrap64 z = z.
Proof.
  unfold wrap64, int64_min, int64_max. intros H.
  rewrite Z.mod_small; lia.
Qed.

Lemma arange_nth n i : (i < n)%nat -> nth_error (arange n) i = Some (Z.of_nat i).
Proof.
  intros H. unfold arange.
  rewrite nth_error_map, nth_error_seq.
  destruct (Nat.ltb_spec i n); [reflexivity | lia].
Qed.

Lemma arange_length n : List.length (arange n) = n.
Proof. unfold arange. now rewrite length_map, length_seq. Qed.

Lemma voltages_nth raw a i d :
  nth_error raw i = Some d -> nth_error (voltages raw a) i = Some (volt a d).
Proof. intros H. unfold voltages. now rewrite nth_error_map, H. Qed.

Lemma truediv_ok a b : PrimFloat.eqb b 0 = false -> Py.truediv a b = Ok (a / b)%float.
Proof. intros H. unfold Py.truediv. now rewrite H. Qed.

Lemma decode_ok raw p vs pa :
  PrimFloat.eqb pa 0 = false -> in_int64 (x_reference p) = true ->
  decode raw p vs pa =
    Ok (map (tick (x_reference p) (x_increment p) (x_origin p)) (arange (List.length raw)),
        voltages raw (vs / pa)%float).
Proof.
  intros Hpa Href. unfold decode, time_axis.
  now rewrite (truediv_ok _ Hpa), Href.
Qed.

(** The session's last phase returns what [decode] computes, or raises what
    it raises. *)
Lemma convert_decode T R (s : state T) p raw vs pa :
  fst (convert R p raw vs pa s) =
    match decode raw p vs pa with
    | Ok (time, voltage) => Ok (VTuple time voltage)
    | Raise e => Raise e
    end.
Proof.
  unfold convert, decode, bind, lift, print, ret.
  destruct (Py.truediv vs pa); [|reflexivity].
  destruct (time_axis (List.length raw) p); reflexivity.
Qed.

(** C1: every sample [d] at index [i] is decoded to the voltage
    [((d - 130.0) / 25.0) * (vertical_scale / probe_attenuation)] and the
    time [(i - x_reference) * x_increment + x_origin], in float64 arithmetic
    on an int64 difference (which is the exact difference when it fits);
    and the three samples 130, 155, 105 with increment 1e-6, origin 0,
    reference 0, scale 1.0 and attenuation 1.0 decode to the voltages
    0.0, 1.0, -1.0 at the times 0.0, 1e-6, 2e-6. *)
Theorem decode_affine raw p vs pa :
  PrimFloat.eqb pa 0 = false ->
  in_int64 (x_reference p) = true ->
  (exists time voltage,
     decode raw p vs pa = Ok (time, voltage) /\
     forall i d, nth_error raw i = Some d ->
       nth_error voltage i
         = Some ((sample d - 130.0) / 25.0 * (vs / pa))%float /\
       nth_error time i
         = Some (Py.float_of_int (wrap64 (Z.of_nat i - x_reference p))
                 * x_increment p + x_origin p)%float /\
       (int64_min <= Z.of_nat i - x_reference p <= int64_max ->
        wrap64 (Z.of_nat i - x_reference p) = Z.of_nat i - x_reference p)) /\
  (forall q, x_increment q = 1e-6%float -> x_origin q = 0%float ->
     x_reference q = 0 ->
     decode (map Bench.u8 [130; 155; 105]%N) q 1.0 1.0
       = Ok ([0.0; 1e-6; 2e-6]%float, [0.0; 1.0; -1.0]%float)).
Proof.
  intros Hpa Href. split.
  - eexists _, _. split; [apply decode_ok; assumption|].
    intros i d Hd. repeat split.
    + now apply voltages_nth.
    + rewrite nth_error_map, arange_nth; [reflexivity|].
      apply nth_error_Some. congruence.
    + apply wrap64_id.
  - intros q Hi Ho Hr. unfold decode, time_axis.
    rewrite Hi, Ho, Hr. vm_compute. reflexivity.
Qed.

(** C2: for every raw block and every preamble, whatever its point count
    says, decoding returns a time and a voltage sequence of exactly the
    length of the raw block, defined at the same indices; so a block of N
    samples under a preamble announcing N points gives N times and N
    voltages. The session returns that pair. *)
Theorem decode_lengths raw p vs pa :
  PrimFloat.eqb pa 0 = false ->
  in_int64 (x_reference p) = true ->
  exists time voltage,
    decode raw p vs pa = Ok (time, voltage) /\
    List.length time = List.length raw /\
    List.length voltage = List.length raw /\
    (forall i, nth_error time i <> None <-> nth_error voltage i <> None) /\
    (forall N, points p = Py.str_int (Z.of_nat N) -> List.length raw = N ->
       List.length time = N /\ List.length voltage = N) /\
    (forall T R (s : state T),
       fst (convert R p raw vs pa s) = Ok (VTuple time voltage)).
Proof.
  intros Hpa Href. eexists _, _. split; [apply decode_ok; assumption|].
  assert (Ht : forall n, List.length
             (map (tick (x_reference p) (x_increment p) (x_origin p)) (arange n)) = n)
    by (intros n; now rewrite length_map, arange_length).
  assert (Hv : List.length (voltages raw (vs / pa)%float) = List.length raw)
    by (unfold voltages; now rewrite length_map).
  repeat split.
  - apply Ht.
  - apply Hv.
  - rewrite !nth_error_Some. rewrite Ht, Hv. trivial.
  - rewrite !nth_error_Some. rewrite Ht, Hv. trivial.
  - subst N. apply Ht.
  - subst N. apply Hv.
  - intros T R s. rewrite convert_decode, decode_ok by assumption. reflexivity.
Qed.

(** C8: with a probe attenuation equal to zero the division
    [vertical_scale / probe_attenuation] raises [ZeroDivisionError], so the
    decoder and the session's last phase raise it and no infinite or NaN
    array is returned. *)
Theorem decode_zero_attenuation raw p vs pa :
  PrimFloat.eqb pa 0 = true ->
  Py.truediv vs pa = Raise ZeroDivisionError /\
  decode raw p vs pa = Raise ZeroDivisionError /\
  (forall T R (s : state T),
     convert R p raw vs pa s = (Raise ZeroDivisionError, s)).
Proof.
  intros H.
  assert (Hd : Py.truediv vs pa = Raise ZeroDivisionError)
    by (unfold Py.truediv; now rewrite H).
  split; [exact Hd|]. split.
  - unfold decode. now rewrite Hd.
  - intros T R s. unfold convert, bind, lift. now rewrite Hd.
Qed.

(** ** The preamble *)

Lemma to_float_raise s e : to_float s = Raise e -> e = ValueError.
Proof.
  unfold to_float. destruct (Py.float_of_str s); congruence.
Qed.

Lemma int_of_float_raise x e :
  Py.int_of_float x = Raise e -> e = ValueError \/ e = OverflowError.
Proof.
  unfold Py.int_of_float. destruct (Prim2SF x); intros H; inversion H; auto.
Qed.

Lemma to_int_raise s e : to_int s = Raise e -> e = ValueError \/ e = OverflowError.
Proof.
  unfold to_int. destruct (to_float s) eqn:E.
  - apply int_of_float_raise.
  - intros H. inversion H. subst. left. eapply to_float_raise. eassumption.
Qed.



Lemma parse_short fields :
  (List.length fields < 10)%nat -> parse_preamble fields = Raise ValueError.
Proof.
  intros H.
  do 10 (destruct fields as [|? fields]; [reflexivity|]).
  simpl in H. lia.
Qed.

Lemma parse_malformed fields :
  malformed fields ->
  parse_preamble fields = Raise ValueError \/
  parse_preamble fields = Raise OverflowError.
Proof.
  intros [Hshort | (i & f & Hi & Hf & Hc)].
  - left. now apply parse_short.
  - destruct (Nat.ltb_spec (List.length fields) 10) as [Hlt|Hge].
    { left. now apply parse_short. }
    destruct fields as [|f0 [|f1 [|f2 [|f3 [|f4 [|f5 [|f6 [|f7 [|f8 [|f9 rest]]]]]]]]]];
      simpl in Hge; try lia.
    unfold parse_preamble, rbind. simpl firstn. cbv beta iota.
    destruct (to_float f4) eqn:E4;
      [|left; f_equal; eapply to_float_raise; eassumption].
    destruct (to_float f5) eqn:E5;
      [|left; f_equal; eapply to_float_raise; eassumption].
    destruct (to_int f6) eqn:E6;
      [|destruct (to_int_raise _ E6); subst; auto].
    destruct (to_float f7) eqn:E7;
      [|left; f_equal; eapply to_float_raise; eassumption].
    destruct (to_float f8) eqn:E8;
      [|left; f_equal; eapply to_float_raise; eassumption].
    destruct (to_int f9) eqn:E9;
      [|destruct (to_int_raise _ E9); subst; auto].
    exfalso.
    do 10 (destruct i as [|i];
           [try lia; simpl in Hf; inversion Hf; subst; unfold field_converts in Hc;
            rewrite ?E4, ?E5, ?E6, ?E7, ?E8, ?E9 in Hc; discriminate|]).
    lia.
Qed.



(** ** The session *)

Section SessionFacts.

Variable T : Transport.
Variable R : Render.

Implicit Types s : state T.

Lemma bind_ok A B (m : M T A) (k : A -> M T B) s b s' :
  bind m k s = (Ok b, s') ->
  exists a s1, m s = (Ok a, s1) /\ k a s1 = (Ok b, s').
Proof.
  unfold bind. destruct (m s) as [[a|e] s1]; [eauto | discriminate].
Qed.

Lemma on_inst_none A c (f : handle T -> device T -> result A * device T) s :
  inst s = None -> on_inst c f s = (Raise AttributeError, s).
Proof. intros H. unfold on_inst. now rewrite H. Qed.

(** A call on [self.inst] reaches the transport exactly once. *)
Lemma on_inst_some A c (f : handle T -> device T -> result A * device T) s h :
  inst s = Some h ->
  on_inst c f s = (fst (f h (dev s)), called c (snd (f h (dev s))) s).
Proof.
  intros H. unfold on_inst. rewrite H. now destruct (f h (dev s)).
Qed.

Lemma on_inst_ok A c (f : handle T -> device T -> result A * device T) s a s' :
  on_inst c f s = (Ok a, s') ->
  exists h, inst s = Some h /\ fst (f h (dev s)) = Ok a /\
            s' = called c (snd (f h (dev s))) s.
Proof.
  destruct (inst s) as [h|] eqn:E.
  - rewrite (on_inst_some _ _ _ E). intros H. inversion H. eauto.
  - rewrite (on_inst_none _ _ _ E). discriminate.
Qed.

Lemma lift_ok A (r : result A) s a s' :
  lift r s = (Ok a, s') -> r = Ok a /\ s' = s.
Proof. unfold lift. intros H. inversion H. auto. Qed.

Lemma print_ok line s u s' :
  print line s = (Ok u, s') -> s' = printed line s.
Proof. unfold print. intros H. now inversion H. Qed.

Lemma ret_ok A (a b : A) s s' : ret a s = (Ok b, s') -> b = a /\ s' = s.
Proof. unfold ret. intros H. inversion H. auto. Qed.

(** Splits a successful run of a method body into its steps. *)
Ltac steps :=
  repeat match goal with
    | H : bind _ _ _ = (Ok _, _) |- _ =>
        let a := fresh "a" in let s1 := fresh "s" in
        let H1 := fresh "Hm" in let H2 := fresh "Hk" in
        apply bind_ok in H; destruct H as (a & s1 & H1 & H2)
    | H : on_inst _ _ _ = (Ok _, _) |- _ =>
        let h := fresh "h" in let Hi := fresh "Hinst" in
        let Hf := fresh "Hcall" in let Hs := fresh "Hs" in
        apply on_inst_ok in H; destruct H as (h & Hi & Hf & Hs)
    | H : inst_write _ _ = (Ok _, _) |- _ => unfold inst_write in H
    | H : inst_query _ _ = (Ok _, _) |- _ => unfold inst_query in H
    | H : inst_query_binary_values _ _ = (Ok _, _) |- _ =>
        unfold inst_query_binary_values in H
    | H : lift _ _ = (Ok _, _) |- _ =>
        apply lift_ok in H; destruct H as [H ?]
    | H : print _ _ = (Ok _, _) |- _ => apply print_ok in H
    | H : ret _ _ = (Ok _, _) |- _ => apply ret_ok in H; destruct H as [? ?]
    end.

Lemma select_source_ok ch s u s' :
  select_source ch s = (Ok u, s') ->
  inst s' = inst s /\
  calls s' = (calls s ++ [Write (":WAV:SOUR CHAN" ++ Py.str_int ch);
                         Write ":WAV:FORM BYTE"; Write ":WAV:MODE NORMAL";
                         Query ":WAV:FORM?"])%list.
Proof.
  unfold select_source. intros H. steps.
  assert (s0 = s) as -> by (destruct (inst s); [now apply ret_ok in Hm | discriminate]).
  subst. simpl. split; [reflexivity|]. now rewrite <- !app_assoc.
Qed.

Lemma read_preamble_ok s p s' :
  read_preamble R s = (Ok p, s') ->
  inst s' = inst s /\ calls s' = (calls s ++ [Query ":WAV:PRE?"])%list.
Proof.
  unfold read_preamble. intros H. steps. subst. simpl. auto.
Qed.

Lemma read_samples_ok s data s' :
  read_samples R s = (Ok data, s') ->
  inst s' = inst s /\ calls s' = (calls s ++ [QueryBinaryValues ":WAV:DATA?"])%list.
Proof.
  unfold read_samples. intros H. steps. subst. simpl. auto.
Qed.

Lemma read_scale_ok ch s sp s' :
  read_scale R ch s = (Ok sp, s') ->
  inst s' = inst s /\
  calls s' = (calls s ++ [Query (":CHAN" ++ Py.str_int ch ++ ":SCAL?");
                         Query (":CHAN" ++ Py.str_int ch ++ ":PROB?")])%list.
Proof.
  unfold read_scale. intros H. steps. subst. simpl.
  split; [reflexivity|]. now rewrite <- !app_assoc.
Qed.

Lemma convert_calls p data vs pa s r s' :
  convert R p data vs pa s = (r, s') -> inst s' = inst s /\ calls s' = calls s.
Proof.
  unfold convert, bind, lift, print, ret.
  destruct (Py.truediv vs pa); [|intros H; inversion H; auto].
  destruct (time_axis (List.length data) p); intros H; inversion H; auto.
Qed.

(** C7: a waveform read that succeeds has talked to the transport in exactly
    this order: the source selection for the channel, the byte format and the
    normal mode, the format query, the preamble query, the binary block
    query, and then the channel's scale and probe attenuation queries; the
    decoding makes no call. *)
Theorem get_waveform_calls ch s v s' :
  get_waveform R ch s = (Ok v, s') ->
  calls s' = (calls s ++
    [Write (":WAV:SOUR CHAN" ++ Py.str_int ch);
     Write ":WAV:FORM BYTE";
     Write ":WAV:MODE NORMAL";
     Query ":WAV:FORM?";
     Query ":WAV:PRE?";
     QueryBinaryValues ":WAV:DATA?";
     Query (":CHAN" ++ Py.str_int ch ++ ":SCAL?");
     Query (":CHAN" ++ Py.str_int ch ++ ":PROB?")])%list.
Proof.
  unfold get_waveform. intros H.
  apply bind_ok in H. destruct H as (u & s1 & H1 & H).
  apply bind_ok in H. destruct H as (p & s2 & H2 & H).
  apply bind_ok in H. destruct H as (data & s3 & H3 & H).
  apply bind_ok in H. destruct H as (sp & s4 & H4 & H5).
  apply select_source_ok in H1. destruct H1 as [_ E1].
  apply read_preamble_ok in H2. destruct H2 as [_ E2].
  apply read_samples_ok in H3. destruct H3 as [_ E3].
  apply read_scale_ok in H4. destruct H4 as [_ E4].
  apply convert_calls in H5. destruct H5 as [_ E5].
  rewrite E5, E4, E3, E2, E1. now rewrite <- !app_assoc.
Qed.

(** [disconnect] without a handle, and with one: the outcome of the close
    decides. *)
Lemma disconnect_none s : inst s = None -> disconnect s = (Ok VNone, s).
Proof. intros E. unfold disconnect. now rewrite E. Qed.

Lemma disconnect_some s h :
  inst s = Some h ->
  disconnect s =
    match close T h (dev s) with
    | (Ok _, d) =>
        (Ok VNone,
         printed "Disconnected from oscilloscope."
           (set_inst None (called Close d s)))
    | (Raise e, d) => (Raise e, called Close d s)
    end.
Proof.
  intros E. unfold disconnect. rewrite E.
  unfold bind, inst_close, on_inst. rewrite E.
  destruct (close T h (dev s)) as [[u|e] d]; reflexivity.
Qed.

Lemma disconnect_returned s v s1 :
  disconnect s = (Ok v, s1) -> v = VNone /\ inst s1 = None.
Proof.
  destruct (inst s) as [h|] eqn:E.
  - rewrite (disconnect_some _ E).
    destruct (close T h (dev s)) as [[u|e] d]; intros H; inversion H.
    split; reflexivity.
  - rewrite (disconnect_none _ E). intros H. inversion H. subst.
    split; [reflexivity | exact E].
Qed.

(** C4: on an object whose [inst] is [None] every configuration call and the
    waveform read raise and leave the state as it was, so nothing is sent;
    the waveform read raises the guard's "Oscilloscope not connected.", but
    the four setters have no guard and raise [AttributeError] from the
    attribute lookup on [None]. A disconnect that returns leaves [inst] at
    [None]. *)
Theorem disconnected_calls_raise s ch time_per_div volts_per_div mode source slope level :
  inst s = None ->
  set_channel ch s = (Raise AttributeError, s) /\
  set_timebase R time_per_div s = (Raise AttributeError, s) /\
  set_voltage_scale R ch volts_per_div s = (Raise AttributeError, s) /\
  set_trigger R mode source slope level s = (Raise AttributeError, s) /\
  get_waveform R ch s = (Raise (Exception "Oscilloscope not connected."), s) /\
  AttributeError <> Exception "Oscilloscope not connected." /\
  (forall (s0 : state T) v s1, disconnect s0 = (Ok v, s1) -> inst s1 = None).
Proof.
  intros H.
  assert (W : forall cmd, inst_write cmd s = (Raise AttributeError, s))
    by (intros cmd; apply on_inst_none; exact H).
  repeat split.
  - unfold set_channel, bind. now rewrite W.
  - unfold set_timebase, bind. now rewrite W.
  - unfold set_voltage_scale, bind. now rewrite W.
  - unfold set_trigger, bind. now rewrite W.
  - unfold get_waveform, select_source, bind. now rewrite H.
  - discriminate.
  - intros s0 v s1 D. exact (proj2 (disconnect_returned _ D)).
Qed.

(** C5 (amended): a connect that fails does so in one of two ways. Either
    the resource cannot be opened: the transport's exception propagates and
    [inst] is what it was, [None] on a fresh object. Or the resource opens
    and the identity query raises: the exception propagates, and [inst]
    holds the handle just opened, which is not closed. *)
Theorem connect_failure s e s' :
  connect s = (Raise e, s') ->
  (fst (open_resource T (resource_name s) (dev s)) = Raise e /\
   inst s' = inst s /\
   calls s' = (calls s ++ [OpenResource (resource_name s)])%list) \/
  (exists h,
     fst (open_resource T (resource_name s) (dev s)) = Ok h /\
     fst (query T h "*IDN?" (snd (open_resource T (resource_name s) (dev s))))
       = Raise e /\
     inst s' = Some h /\
     calls s' = (calls s ++ [OpenResource (resource_name s); Query "*IDN?"])%list).
Proof.
  unfold connect, bind, rm_open_resource, assign_inst, inst_query.
  destruct (open_resource T (resource_name s) (dev s)) as [[h|e0] d1]; simpl.
  - erewrite on_inst_some by reflexivity. simpl.
    destruct (query T h "*IDN?" d1) as [[idn|e1] d2] eqn:Eq; simpl;
      intros H; inversion H.
    subst. right. exists h. rewrite Eq. simpl. rewrite <- app_assoc. auto.
  - intros H. inversion H. subst. left. simpl. auto.
Qed.

(** C6 (amended): a connect that succeeds has opened the resource, sent
    exactly the identity query after it, printed "Connected to" followed by
    the identity string, kept the handle, and returned [None]. *)
Theorem connect_success s v s' :
  connect s = (Ok v, s') ->
  exists h idn,
    fst (open_resource T (resource_name s) (dev s)) = Ok h /\
    query T h "*IDN?" (snd (open_resource T (resource_name s) (dev s)))
      = (Ok idn, dev s') /\
    v = VNone /\
    inst s' = Some h /\
    calls s' = (calls s ++ [OpenResource (resource_name s); Query "*IDN?"])%list /\
    stdout s' = (stdout s ++ [("Connected to " ++ idn)%string])%list.
Proof.
  unfold connect, bind, rm_open_resource, assign_inst, inst_query.
  destruct (open_resource T (resource_name s) (dev s)) as [[h|e0] d1]; simpl;
    [|discriminate].
  erewrite on_inst_some by reflexivity. simpl.
  destruct (query T h "*IDN?" d1) as [[idn|e1] d2] eqn:Eq; simpl;
    intros H; inversion H.
  subst. exists h, idn. rewrite Eq. simpl. rewrite <- app_assoc. auto 10.
Qed.

(** C9 (amended): disconnect is idempotent, and it raises only when the
    transport's close raises. Without a handle it changes nothing and
    returns [None]. With a handle it calls close: when close returns, it
    clears [inst], prints one line and returns [None]; when close raises,
    the exception propagates, [inst] still holds the handle and nothing is
    printed. After a disconnect that returned, a second disconnect changes
    nothing. *)
Theorem disconnect_idempotent s :
  (inst s = None -> disconnect s = (Ok VNone, s)) /\
  (forall h u d, inst s = Some h -> close T h (dev s) = (Ok u, d) ->
     disconnect s
       = (Ok VNone,
          printed "Disconnected from oscilloscope."
            (set_inst None (called Close d s)))) /\
  (forall h e d, inst s = Some h -> close T h (dev s) = (Raise e, d) ->
     disconnect s = (Raise e, called Close d s) /\
     inst (snd (disconnect s)) = Some h /\
     stdout (snd (disconnect s)) = stdout s) /\
  (forall v s1, disconnect s = (Ok v, s1) ->
     v = VNone /\ inst s1 = None /\ disconnect s1 = (Ok VNone, s1)) /\
  (forall e s1, disconnect s = (Raise e, s1) ->
     exists h, inst s = Some h /\ fst (close T h (dev s)) = Raise e).
Proof.
  split; [apply disconnect_none|].
  split; [intros h u d E C; rewrite (disconnect_some _ E), C; reflexivity|].
  split.
  { intros h e d E C. rewrite (disconnect_some _ E), C. simpl.
    split; [reflexivity|]. split; [exact E | reflexivity]. }
  split.
  { intros v s1 D. destruct (disconnect_returned _ D) as [Hv Hi].
    split; [exact Hv|]. split; [exact Hi|]. now apply disconnect_none. }
  intros e s1. destruct (inst s) as [h|] eqn:E.
  - rewrite (disconnect_some _ E).
    destruct (close T h (dev s)) as [[u|e0] d] eqn:C; intros H; inversion H.
    subst. exists h. split; [reflexivity | now rewrite C].
  - rewrite (disconnect_none _ E). discriminate.
Qed.

(** C3 (amended): when the reply to the preamble query splits into fewer
    than ten fields, or one of its fields 4 to 9 (the increments, origins
    and references) does not convert, the waveform read raises [ValueError]
    (or [OverflowError] for an infinite reference) right after printing the
    field list: it returns no arrays and makes no further call. *)
Theorem malformed_preamble_raises ch s s1 s2 reply :
  select_source ch s = (Ok tt, s1) ->
  inst_query ":WAV:PRE?" s1 = (Ok reply, s2) ->
  malformed (preamble_fields reply) ->
  exists e,
    (e = ValueError \/ e = OverflowError) /\
    get_waveform R ch s
      = (Raise e,
         printed ("Preamble Fields: " ++ str_list R (preamble_fields reply)) s2).
Proof.
  intros H1 H2 Hbad.
  destruct (parse_malformed Hbad) as [E|E];
    [exists ValueError | exists OverflowError];
    (split; [auto|]);
    unfold get_waveform, bind; rewrite H1;
    unfold read_preamble, bind; rewrite H2;
    unfold print, lift; rewrite E; reflexivity.
Qed.

(** X1: a trigger set-up that succeeds has sent exactly four commands, in
    this order: the mode, the edge source, the edge slope, and the level
    qualified by the source channel; it returns [None]. *)
Theorem set_trigger_calls mode source slope level s v s' :
  set_trigger R mode source slope level s = (Ok v, s') ->
  v = VNone /\
  calls s' = (calls s ++
    [Write (":TRIG:MODE " ++ mode);
     Write (":TRIG:EDGE:SOUR CHAN" ++ Py.str_int source);
     Write (":TRIG:EDGE:SLOP " ++ slope);
     Write (":TRIG:LEV CHAN" ++ Py.str_int source ++ "," ++ str_float R level)])%list.
Proof.
  unfold set_trigger. intros H. steps. subst. simpl.
  split; [reflexivity|]. now rewrite <- !app_assoc.
Qed.

End SessionFacts.

(** ** The class on the bench *)

Lemma decode_affine_witness :
  decode (map Bench.u8 [130; 155; 105]%N) Bench.header 1.0 1.0
    = Ok ([0.0; 1e-6; 2e-6]%float, [0.0; 1.0; -1.0]%float).
Proof.
  apply (proj2 (@decode_affine (map Bench.u8 [130; 155; 105]%N) Bench.header
                  1.0%float 1.0%float eq_refl eq_refl));
    reflexivity.
Defined.

Lemma decode_lengths_witness :
  exists time voltage,
    decode (map Bench.u8 [130; 155; 105]%N) Bench.header 1.0 1.0 = Ok (time, voltage) /\
    List.length time = 3%nat /\ List.length voltage = 3%nat.
Proof.
  destruct (@decode_lengths (map Bench.u8 [130; 155; 105]%N) Bench.header
              1.0%float 1.0%float eq_refl eq_refl)
    as (time & voltage & Hd & Ht & Hv & _).
  exists time, voltage. auto.
Defined.

Lemma decode_zero_attenuation_witness :
  decode (map Bench.u8 [130; 155; 105]%N) Bench.header 1.0 0.0
    = Raise ZeroDivisionError /\
  decode (map Bench.u8 [130; 155; 105]%N) Bench.header 1.0 (-0.0)
    = Raise ZeroDivisionError.
Proof.
  split.
  - exact (proj1 (proj2 (@decode_zero_attenuation (map Bench.u8 [130; 155; 105]%N)
                           Bench.header 1.0%float 0.0%float eq_refl))).
  - exact (proj1 (proj2 (@decode_zero_attenuation (map Bench.u8 [130; 155; 105]%N)
                           Bench.header 1.0%float (-0.0)%float eq_refl))).
Defined.

(** The whole read on the bench raises on a probe reply of zero. *)
Example zero_probe_reply_raises :
  fst (get_waveform Bench.render 1 (Bench.connected (Bench.with_probe "0" Bench.scope)))
    = Raise ZeroDivisionError.
Proof. vm_compute. reflexivity. Qed.

Lemma get_waveform_calls_witness :
  calls (snd (get_waveform Bench.render 1 (Bench.connected Bench.scope)))
    = [OpenResource Bench.address; Query "*IDN?";
       Write ":WAV:SOUR CHAN1"; Write ":WAV:FORM BYTE"; Write ":WAV:MODE NORMAL";
       Query ":WAV:FORM?"; Query ":WAV:PRE?"; QueryBinaryValues ":WAV:DATA?";
       Query ":CHAN1:SCAL?"; Query ":CHAN1:PROB?"].
Proof.
  rewrite (@get_waveform_calls Bench.transport Bench.render 1
             (Bench.connected Bench.scope)
             (VTuple [0.0; 1e-6; 2e-6]%float [0.0; 1.0; -1.0]%float)
             (snd (get_waveform Bench.render 1 (Bench.connected Bench.scope))));
    vm_compute; reflexivity.
Defined.

Lemma disconnected_calls_raise_witness :
  set_trigger Bench.render "EDGE" 1 "POS" 0.5 (Bench.fresh Bench.scope)
    = (Raise AttributeError, Bench.fresh Bench.scope) /\
  get_waveform Bench.render 1 (Bench.fresh Bench.scope)
    = (Raise (Exception "Oscilloscope not connected."), Bench.fresh Bench.scope) /\
  calls (Bench.fresh Bench.scope) = [].
Proof.
  pose proof (@disconnected_calls_raise Bench.transport Bench.render
                (Bench.fresh Bench.scope) 1 1e-3%float 1.0%float
                "EDGE" 1 "POS" 0.5%float eq_refl) as H.
  split; [apply H|]. split; [apply H | reflexivity].
Defined.

(** C5, as stated, fails: the instrument opens but does not answer the
    identity query; connect raises and the object keeps the open handle. *)
Lemma connect_keeps_handle_when_identity_fails :
  inst (Bench.fresh (Bench.mute Bench.scope)) = None /\
  fst (connect (Bench.fresh (Bench.mute Bench.scope)))
    = Raise (VisaIOError Bench.VI_ERROR_TMO) /\
  inst (snd (connect (Bench.fresh (Bench.mute Bench.scope)))) = Some tt /\
  Bench.sessions (dev (snd (connect (Bench.fresh (Bench.mute Bench.scope))))) = 1%nat /\
  ~ (forall s e s', inst s = None ->
       connect (T := Bench.transport) s = (Raise e, s') -> inst s' = None).
Proof.
  split; [reflexivity|]. split; [reflexivity|]. split; [reflexivity|].
  split; [reflexivity|].
  intros H.
  specialize (H (Bench.fresh (Bench.mute Bench.scope)) _ _ eq_refl eq_refl).
  discriminate H.
Qed.

Lemma connect_failure_witness :
  inst (snd (connect (Bench.fresh (Bench.unplugged Bench.scope)))) = None /\
  inst (snd (connect (Bench.fresh (Bench.mute Bench.scope)))) = Some tt.
Proof.
  split.
  - destruct (@connect_failure Bench.transport
                (Bench.fresh (Bench.unplugged Bench.scope))
                (VisaIOError Bench.VI_ERROR_RSRC_NFOUND)
                (snd (connect (Bench.fresh (Bench.unplugged Bench.scope))))
                eq_refl) as [(_ & Hi & _) | (h & Ho & _)].
    + exact Hi.
    + discriminate Ho.
  - destruct (@connect_failure Bench.transport
                (Bench.fresh (Bench.mute Bench.scope))
                (VisaIOError Bench.VI_ERROR_TMO)
                (snd (connect (Bench.fresh (Bench.mute Bench.scope))))
                eq_refl) as [(Ho & _) | (h & _ & _ & Hi & _)].
    + discriminate Ho.
    + destruct h. exact Hi.
Defined.

(** C6, as stated, fails: the instrument answers the identity query and
    connect returns [None], not the identity string. *)
Lemma connect_returns_none :
  fst (query Bench.transport tt "*IDN?" (Bench.opened Bench.scope))
    = Ok (Bench.identity Bench.scope) /\
  fst (connect (Bench.fresh Bench.scope)) = Ok VNone /\
  fst (connect (Bench.fresh Bench.scope)) <> Ok (VStr (Bench.identity Bench.scope)).
Proof.
  split; [reflexivity|]. split; [reflexivity|]. discriminate.
Qed.

Lemma connect_success_witness :
  fst (connect (Bench.fresh Bench.scope)) = Ok VNone /\
  stdout (Bench.connected Bench.scope)
    = ["Connected to RIGOL TECHNOLOGIES,DS1054Z,DS1ZA000000000,00.04.04"].
Proof.
  destruct (@connect_success Bench.transport (Bench.fresh Bench.scope) VNone
              (Bench.connected Bench.scope) eq_refl)
    as (h & idn & _ & _ & _ & _ & _ & _).
  split; reflexivity.
Defined.

(** C3, as stated, fails: a preamble whose point count is not a number is
    accepted, because the first four fields are never converted. *)
Lemma unconverted_point_count_accepted :
  nth_error (preamble_fields "0,0,many,1,1e-6,0,0,0.04,0,127") 2 = Some "many" /\
  Py.float_of_str "many" = None /\
  fst (get_waveform Bench.render 1
         (Bench.connected
            (Bench.with_preamble "0,0,many,1,1e-6,0,0,0.04,0,127" Bench.scope)))
    = Ok (VTuple [0.0; 1e-6; 2e-6]%float [0.0; 1.0; -1.0]%float).
Proof. repeat split; vm_compute; reflexivity. Qed.

Lemma malformed_preamble_raises_witness :
  exists e,
    (e = ValueError \/ e = OverflowError) /\
    get_waveform Bench.render 1
      (Bench.connected (Bench.with_preamble "0,0,3,1,1e-6,0,0" Bench.scope))
    = (Raise e,
       printed ("Preamble Fields: "
                ++ str_list Bench.render (preamble_fields "0,0,3,1,1e-6,0,0"))
         (snd (inst_query ":WAV:PRE?" (snd (select_source 1
            (Bench.connected (Bench.with_preamble "0,0,3,1,1e-6,0,0" Bench.scope))))))).
Proof.
  apply (@malformed_preamble_raises Bench.transport Bench.render 1
           (Bench.connected (Bench.with_preamble "0,0,3,1,1e-6,0,0" Bench.scope))
           (snd (select_source 1
              (Bench.connected (Bench.with_preamble "0,0,3,1,1e-6,0,0" Bench.scope))))
           (snd (inst_query ":WAV:PRE?" (snd (select_source 1
              (Bench.connected (Bench.with_preamble "0,0,3,1,1e-6,0,0" Bench.scope))))))
           "0,0,3,1,1e-6,0,0").
  - vm_compute. reflexivity.
  - vm_compute. reflexivity.
  - left. vm_compute. repeat constructor.
Defined.

(** Seven fields, as in the scenario of the specification. *)
Example seven_fields_raise :
  fst (get_waveform Bench.render 1
         (Bench.connected (Bench.with_preamble "0,0,3,1,1e-6,0,0" Bench.scope)))
    = Raise ValueError.
Proof. vm_compute. reflexivity. Qed.

(** C9, as stated, fails: behind a driver whose close fails, disconnect
    raises and the object keeps its handle. *)
Lemma disconnect_raises_when_close_fails :
  inst (snd (connect (init Bench.jammed Bench.address Bench.scope))) = Some tt /\
  fst (disconnect (snd (connect (init Bench.jammed Bench.address Bench.scope))))
    = Raise (VisaIOError Bench.VI_ERROR_CLOSING_FAILED) /\
  inst (snd (disconnect (snd (connect (init Bench.jammed Bench.address Bench.scope)))))
    = Some tt /\
  ~ (forall s : state Bench.jammed, fst (disconnect s) = Ok VNone).
Proof.
  split; [reflexivity|]. split; [reflexivity|]. split; [reflexivity|].
  intros H.
  specialize (H (snd (connect (init Bench.jammed Bench.address Bench.scope)))).
  discriminate H.
Qed.

Lemma disconnect_idempotent_witness :
  disconnect (Bench.connected Bench.scope)
    = (Ok VNone,
       printed "Disconnected from oscilloscope."
         (set_inst None
            (called (T := Bench.transport) Close
               (Bench.closed (Bench.opened Bench.scope))
               (Bench.connected Bench.scope)))) /\
  disconnect (snd (disconnect (Bench.connected Bench.scope)))
    = (Ok VNone, snd (disconnect (Bench.connected Bench.scope))) /\
  calls (snd (disconnect (Bench.connected Bench.scope)))
    = [OpenResource Bench.address; Query "*IDN?"; Close].
Proof.
  pose proof (@disconnect_idempotent Bench.transport (Bench.connected Bench.scope))
    as (_ & Hs & _ & Hr & _).
  split.
  - exact (Hs tt tt (Bench.closed (Bench.opened Bench.scope)) eq_refl eq_refl).
  - split.
    + exact (proj2 (proj2 (Hr VNone (snd (disconnect (Bench.connected Bench.scope)))
                             eq_refl))).
    + reflexivity.
Defined.

Lemma set_trigger_calls_witness :
  calls (snd (set_trigger Bench.render "EDGE" 1 "POS" 0.5 (Bench.connected Bench.scope)))
    = [OpenResource Bench.address; Query "*IDN?";
       Write ":TRIG:MODE EDGE"; Write ":TRIG:EDGE:SOUR CHAN1";
       Write ":TRIG:EDGE:SLOP POS"; Write ":TRIG:LEV CHAN1,<float>"].
Proof.
  rewrite (proj2 (@set_trigger_calls Bench.transport Bench.render "EDGE" 1 "POS"
                    0.5%float (Bench.connected Bench.scope) VNone
                    (snd (set_trigger Bench.render "EDGE" 1 "POS" 0.5
                            (Bench.connected Bench.scope)))
                    eq_refl)).
  reflexivity.
Defined.

(** * Further properties *)

(** ** What a method sends *)

Section CommandFacts.

Variable T : Transport.
Variable R : Render.

Local Open Scope list_scope.

Local Notation "m ;;; k" := (bind m (fun _ => k))
  (at level 61, right associativity).

Implicit Types s : state T.

Lemma firstn_prefix_app A (l1 l2 : list A) n :
  exists k, firstn n l1 = firstn k (l1 ++ l2).
Proof.
  exists (Nat.min n (List.length l1)).
  rewrite firstn_app.
  replace (Nat.min n (List.length l1) - List.length l1)%nat with 0%nat by lia.
  simpl. rewrite app_nil_r.
  destruct (Nat.le_ge_cases n (List.length l1)) as [H|H].
  - now rewrite Nat.min_l.
  - rewrite Nat.min_r by exact H. now rewrite !firstn_all2 by lia.
Qed.

Lemma within_ret A (a : A) : within (T := T) [] (ret a).
Proof.
  intros s r s' H. inversion H. subst. repeat split; auto.
  - exists 0%nat. simpl. now rewrite app_nil_r.
  - intros _. now rewrite app_nil_r.
Qed.

Lemma within_lift A (x : result A) : within (T := T) [] (lift x).
Proof.
  intros s r s' H. inversion H. subst. repeat split; auto.
  - exists 0%nat. simpl. now rewrite app_nil_r.
  - intros _. now rewrite app_nil_r.
Qed.

Lemma within_print line : within (T := T) [] (print line).
Proof.
  intros s r s' H. inversion H. subst. simpl. repeat split; auto.
  - exists 0%nat. simpl. now rewrite app_nil_r.
  - intros _. now rewrite app_nil_r.
Qed.

Lemma within_on_inst A c (f : handle T -> device T -> result A * device T) :
  within [c] (on_inst c f).
Proof.
  intros s r s' H. unfold on_inst in H.
  destruct (inst s) as [h|] eqn:E.
  - destruct (f h (dev s)) as [r0 d]. inversion H. subst. simpl.
    repeat split; auto. exists 1%nat. reflexivity.
  - inversion H. subst. repeat split; auto.
    + exists 0%nat. simpl. now rewrite app_nil_r.
    + discriminate.
Qed.

Lemma within_bind A B l1 l2 (m : M T A) (k : A -> M T B) :
  within l1 m -> (forall a, within l2 (k a)) -> within (l1 ++ l2) (bind m k).
Proof.
  intros Hm Hk s r s' H. unfold bind in H.
  destruct (m s) as [[a|e] s1] eqn:E.
  - destruct (Hm _ _ _ E) as (N1 & I1 & _ & F1).
    destruct (Hk a _ _ _ H) as (N2 & I2 & (n & P2) & F2).
    specialize (F1 eq_refl).
    repeat split; try congruence.
    + exists (List.length l1 + n)%nat.
      rewrite firstn_app_2, P2, F1. now rewrite <- app_assoc.
    + intros Hr. rewrite (F2 Hr), F1. now rewrite <- app_assoc.
  - inversion H. subst. destruct (Hm _ _ _ E) as (N1 & I1 & (n & P1) & _).
    repeat split; auto.
    + destruct (firstn_prefix_app l1 l2 n) as (k' & Hk'). exists k'.
      now rewrite <- Hk'.
    + discriminate.
Qed.

Lemma within_guard :
  within (T := T) []
    (fun s => match inst s with
              | None => raise (Exception "Oscilloscope not connected.") s
              | Some _ => ret tt s
              end).
Proof.
  intros s r s' H.
  assert (s' = s) as -> by (destruct (inst s); inversion H; reflexivity).
  repeat split; auto.
  - exists 0%nat. simpl. now rewrite app_nil_r.
  - intros _. now rewrite app_nil_r.
Qed.

(** Builds the command list of a method body from those of its steps. *)
Ltac trace :=
  repeat first
    [ apply within_ret | apply within_lift | apply within_print
    | apply within_on_inst | apply within_guard
    | eapply within_bind; [|intros ?] ].

Lemma within_convert p data vs pa : within [] (convert (T := T) R p data vs pa).
Proof.
  unfold convert.
  change (@nil call) with ([] ++ [] ++ [] ++ [] ++ @nil call)%list. trace.
Qed.

Lemma get_waveform_within ch :
  within (waveform_calls ch) (get_waveform (T := T) R ch).
Proof.
  unfold get_waveform, select_source, read_preamble, read_samples, read_scale,
    inst_write, inst_query, inst_query_binary_values, waveform_calls.
  match goal with |- within ?l _ =>
    change l with
      (([] ++ [Write (":WAV:SOUR CHAN" ++ Py.str_int ch)] ++ [Write ":WAV:FORM BYTE"]
           ++ [Write ":WAV:MODE NORMAL"] ++ [Query ":WAV:FORM?"] ++ [])
       ++ ([Query ":WAV:PRE?"] ++ [] ++ [] ++ [] ++ [] ++ [])
       ++ ([QueryBinaryValues ":WAV:DATA?"] ++ [] ++ [])
       ++ ([Query (":CHAN" ++ Py.str_int ch ++ ":SCAL?")] ++ []
           ++ [Query (":CHAN" ++ Py.str_int ch ++ ":PROB?")] ++ [] ++ [] ++ [])
       ++ [])%list
  end.
  eapply within_bind; [trace|intros ?].
  eapply within_bind; [trace|intros ?].
  eapply within_bind; [trace|intros ?].
  eapply within_bind; [trace|intros ?].
  apply within_convert.
Qed.

Lemma set_trigger_tail source slope level s1 r s' :
  (inst_write (":TRIG:EDGE:SOUR CHAN" ++ Py.str_int source) ;;;
   inst_write (":TRIG:EDGE:SLOP " ++ slope) ;;;
   inst_write (":TRIG:LEV CHAN" ++ Py.str_int source ++ "," ++ str_float R level) ;;;
   ret VNone) s1 = (r, s') ->
  exists k, calls s' = calls s1 ++ firstn k
    [Write (":TRIG:EDGE:SOUR CHAN" ++ Py.str_int source);
     Write (":TRIG:EDGE:SLOP " ++ slope);
     Write (":TRIG:LEV CHAN" ++ Py.str_int source ++ "," ++ str_float R level)].
Proof.
  intros H.
  assert (W : within
    ([Write (":TRIG:EDGE:SOUR CHAN" ++ Py.str_int source)]
       ++ [Write (":TRIG:EDGE:SLOP " ++ slope)]
       ++ [Write (":TRIG:LEV CHAN" ++ Py.str_int source ++ "," ++ str_float R level)]
       ++ [])
    (inst_write (T := T) (":TRIG:EDGE:SOUR CHAN" ++ Py.str_int source) ;;;
     inst_write (":TRIG:EDGE:SLOP " ++ slope) ;;;
     inst_write (":TRIG:LEV CHAN" ++ Py.str_int source ++ "," ++ str_float R level) ;;;
     ret VNone)) by (unfold inst_write; trace).
  destruct (W _ _ _ H) as (_ & _ & P & _). exact P.
Qed.

Lemma set_trigger_within mode source slope level :
  within (trigger_calls R mode source slope level)
    (set_trigger (T := T) R mode source slope level).
Proof.
  unfold set_trigger, inst_write, trigger_calls.
  match goal with |- within [?a; ?b; ?c; ?d] _ =>
    change [a; b; c; d] with ([a] ++ [b] ++ [c] ++ [d] ++ [])%list
  end.
  trace.
Qed.

(** X2: whatever happens during a waveform read, the calls it has made are
    the first few of its eight calls, in order, and all eight when it
    returns; it never opens or closes a resource, and the object keeps its
    resource name and its handle. *)
Theorem get_waveform_prefix ch s r s' :
  get_waveform R ch s = (r, s') ->
  resource_name s' = resource_name s /\
  inst s' = inst s /\
  (exists n, calls s' = calls s ++ firstn n (waveform_calls ch)) /\
  (is_ok r = true -> calls s' = calls s ++ waveform_calls ch) /\
  ~ In Close (waveform_calls ch) /\
  (forall name, ~ In (OpenResource name) (waveform_calls ch)).
Proof.
  intros H. pose proof (get_waveform_within ch) as W.
  destruct (W _ _ _ H) as (N & I & P & F).
  repeat split; auto.
  - simpl. intros [E|[E|[E|[E|[E|[E|[E|[E|[]]]]]]]]]; discriminate E.
  - simpl. intros name [E|[E|[E|[E|[E|[E|[E|[E|[]]]]]]]]]; discriminate E.
Qed.

(** X3: a trigger set-up is not atomic: whatever its outcome, the commands
    it has sent are the first few of its four, in order, and all four when
    it returns; so when a write raises, the commands before it stay sent and
    the later ones are never sent. On an object that holds a handle the mode
    command is always sent. *)
Theorem set_trigger_prefix mode source slope level s r s' :
  set_trigger R mode source slope level s = (r, s') ->
  inst s' = inst s /\
  (exists n, calls s' = calls s ++ firstn n (trigger_calls R mode source slope level) /\
             (inst s <> None -> (1 <= n)%nat)) /\
  (is_ok r = true -> calls s' = calls s ++ trigger_calls R mode source slope level).
Proof.
  intros H. pose proof (set_trigger_within mode source slope level) as Wt.
  destruct (Wt _ _ _ H) as (_ & I & (n & P) & F). clear Wt.
  split; [exact I|]. split; [|exact F].
  destruct (inst s) as [h|] eqn:E.
  - destruct n as [|n].
    + exfalso. revert H. unfold set_trigger, bind, inst_write.
      rewrite (on_inst_some _ _ _ E).
      simpl in P. rewrite app_nil_r in P.
      destruct (write T h (":TRIG:MODE " ++ mode) (dev s)) as [[u|e] d] eqn:W; simpl.
      * intros H. apply set_trigger_tail in H.
        destruct H as (k & Hk). simpl in Hk. rewrite P in Hk.
        apply (f_equal (@List.length call)) in Hk.
        rewrite !length_app in Hk. simpl in Hk. lia.
      * intros H. inversion H. subst. simpl in P.
        apply (f_equal (@List.length call)) in P.
        rewrite length_app in P. simpl in P. lia.
    + exists (S n). split; [exact P|]. intros _. lia.
  - exists n. split; [exact P|]. intros C. now elim C.
Qed.

Lemma on_inst_run A c (f : handle T -> device T -> result A * device T) s h r d :
  inst s = Some h -> f h (dev s) = (r, d) -> on_inst c f s = (r, called c d s).
Proof. intros Hi Hf. unfold on_inst. now rewrite Hi, Hf. Qed.










End CommandFacts.

(** ** Which preambles are accepted *)

Lemma parse_ok_fields fields p :
  parse_preamble fields = Ok p ->
  exists f0 f1 f2 f3 f4 f5 f6 f7 f8 f9 rest,
    fields = f0 :: f1 :: f2 :: f3 :: f4 :: f5 :: f6 :: f7 :: f8 :: f9 :: rest /\
    to_float f4 = Ok (x_increment p) /\ to_float f5 = Ok (x_origin p) /\
    to_int f6 = Ok (x_reference p) /\ to_float f7 = Ok (y_increment p) /\
    to_float f8 = Ok (y_origin p) /\ to_int f9 = Ok (y_reference p) /\
    format_code p = f0 /\ type_code p = f1 /\ points p = f2 /\ count p = f3.
Proof.
  intros H.
  destruct (Nat.ltb_spec (List.length fields) 10) as [Hlt|Hge].
  { rewrite (parse_short _ Hlt) in H. discriminate. }
  destruct fields as [|f0 [|f1 [|f2 [|f3 [|f4 [|f5 [|f6 [|f7 [|f8 [|f9 rest]]]]]]]]]];
    simpl in Hge; try lia.
  exists f0, f1, f2, f3, f4, f5, f6, f7, f8, f9, rest.
  revert H. unfold parse_preamble, rbind. simpl firstn. cbv beta iota.
  destruct (to_float f4); [|discriminate].
  destruct (to_float f5); [|discriminate].
  destruct (to_int f6); [|discriminate].
  destruct (to_float f7); [|discriminate].
  destruct (to_float f8); [|discriminate].
  destruct (to_int f9); [|discriminate].
  intros H. inversion H. simpl. repeat split; reflexivity.
Qed.

(** X5: a field list is accepted exactly when it is not malformed, that is
    when it has at least ten fields and its fields 4 to 9 convert; what
    comes after the tenth field is never looked at. *)
Theorem parse_preamble_accepts fields :
  (is_ok (parse_preamble fields) = true <-> ~ malformed fields) /\
  parse_preamble (firstn 10 fields) = parse_preamble fields.
Proof.
  split; [split|].
  - intros Hok Hbad. destruct (parse_malformed Hbad) as [E|E];
      rewrite E in Hok; discriminate.
  - intros Hgood.
    destruct (Nat.ltb_spec (List.length fields) 10) as [Hlt|Hge].
    { elim Hgood. now left. }
    destruct fields as [|f0 [|f1 [|f2 [|f3 [|f4 [|f5 [|f6 [|f7 [|f8 [|f9 rest]]]]]]]]]];
      simpl in Hge; try lia.
    assert (B : forall i f, (4 <= i <= 9)%nat ->
              nth_error (f0 :: f1 :: f2 :: f3 :: f4 :: f5 :: f6 :: f7 :: f8 :: f9 :: rest) i
                = Some f ->
              field_converts i f = true).
    { intros i f Hi Hf. destruct (field_converts i f) eqn:E; [reflexivity|].
      elim Hgood. right. exists i, f. auto. }
    pose proof (B 4%nat f4 ltac:(lia) eq_refl) as B4.
    pose proof (B 5%nat f5 ltac:(lia) eq_refl) as B5.
    pose proof (B 6%nat f6 ltac:(lia) eq_refl) as B6.
    pose proof (B 7%nat f7 ltac:(lia) eq_refl) as B7.
    pose proof (B 8%nat f8 ltac:(lia) eq_refl) as B8.
    pose proof (B 9%nat f9 ltac:(lia) eq_refl) as B9.
    unfold field_converts in B4, B5, B6, B7, B8, B9.
    unfold parse_preamble, rbind. simpl firstn. cbv beta iota.
    destruct (to_float f4); [|discriminate].
    destruct (to_float f5); [|discriminate].
    destruct (to_int f6); [|discriminate].
    destruct (to_float f7); [|discriminate].
    destruct (to_float f8); [|discriminate].
    destruct (to_int f9); [|discriminate].
    reflexivity.
  - unfold parse_preamble. now rewrite firstn_firstn.
Qed.

(** X6: the decoder reads the preamble only through its fields 4 to 6:
    two accepted field lists that carry the same text there give the same
    times and voltages for the same block, scale and attenuation, whatever
    their format, type, point count, average count and y fields say. *)
Theorem decode_reads_x_fields fields1 fields2 p1 p2 raw vs pa :
  parse_preamble fields1 = Ok p1 ->
  parse_preamble fields2 = Ok p2 ->
  (forall i, (4 <= i <= 6)%nat -> nth_error fields1 i = nth_error fields2 i) ->
  decode raw p1 vs pa = decode raw p2 vs pa.
Proof.
  intros H1 H2 Hx.
  destruct (parse_ok_fields _ H1)
    as (a0 & a1 & a2 & a3 & a4 & a5 & a6 & a7 & a8 & a9 & ra & -> & A4 & A5 & A6 & _).
  destruct (parse_ok_fields _ H2)
    as (b0 & b1 & b2 & b3 & b4 & b5 & b6 & b7 & b8 & b9 & rb & -> & B4 & B5 & B6 & _).
  pose proof (Hx 4%nat ltac:(lia)) as E4. pose proof (Hx 5%nat ltac:(lia)) as E5.
  pose proof (Hx 6%nat ltac:(lia)) as E6.
  simpl in E4, E5, E6. inversion E4. inversion E5. inversion E6. subst.
  unfold decode, time_axis.
  replace (x_increment p2) with (x_increment p1) by congruence.
  replace (x_origin p2) with (x_origin p1) by congruence.
  replace (x_reference p2) with (x_reference p1) by congruence.
  reflexivity.
Qed.

(** ** How a reply splits into fields *)

Lemma split_cons sep s : exists h t, Py.split sep s = h :: t.
Proof.
  destruct s as [|c r]; simpl.
  - eauto.
  - destruct (Ascii.eqb c sep); [eauto|].
    destruct (Py.split sep r); eauto.
Qed.

Lemma split_length s : List.length (Py.split ","%char s) = S (commas s).
Proof.
  induction s as [|c r IH]; simpl; [reflexivity|].
  destruct (Ascii.eqb c ","%char); simpl; [now rewrite IH|].
  destruct (Py.split ","%char r) as [|h t]; simpl in *; [discriminate IH | exact IH].
Qed.

Lemma split_concat s : String.concat "," (Py.split ","%char s) = s.
Proof.
  induction s as [|c r IH]; simpl; [reflexivity|].
  destruct (Ascii.eqb_spec c ","%char) as [->|Hc].
  - destruct (split_cons ","%char r) as (h & t & E). rewrite E in *.
    simpl. simpl in IH. now rewrite IH.
  - destruct (split_cons ","%char r) as (h & t & E). rewrite E in *.
    destruct t as [|h2 t]; simpl in *; now rewrite IH.
Qed.

Lemma split_no_comma s : Forall (fun f => commas f = 0%nat) (Py.split ","%char s).
Proof.
  induction s as [|c r IH]; simpl.
  - repeat constructor.
  - destruct (Ascii.eqb c ","%char) eqn:Ec.
    + constructor; [reflexivity | exact IH].
    + destruct (Py.split ","%char r) as [|h t].
      * repeat constructor. simpl. now rewrite Ec.
      * inversion IH; subst. constructor; [|assumption]. simpl. now rewrite Ec.
Qed.

(** X7: the fields of a preamble reply are the pieces between the commas of
    the stripped reply: one more field than there are commas, no comma in
    any field, and joined by commas they give the stripped reply back; so
    a reply with fewer than nine commas is never accepted. *)
Theorem preamble_fields_split reply :
  List.length (preamble_fields reply) = S (commas (Py.strip reply)) /\
  Forall (fun f => commas f = 0%nat) (preamble_fields reply) /\
  String.concat "," (preamble_fields reply) = Py.strip reply /\
  ((commas (Py.strip reply) < 9)%nat ->
   parse_preamble (preamble_fields reply) = Raise ValueError).
Proof.
  unfold preamble_fields. split; [apply split_length|].
  split; [apply split_no_comma|]. split; [apply split_concat|].
  intros H. apply parse_short. rewrite split_length. lia.
Qed.

(** ** When the decoder fails, and what it lets through *)

Lemma nan_of_spec x : Prim2SF x = S754_nan -> x = nan.
Proof.
  intros H. rewrite <- (SF2Prim_Prim2SF x), H. reflexivity.
Qed.

Lemma mul_nan_r x : (x * nan)%float = nan.
Proof.
  apply nan_of_spec. rewrite mul_spec.
  change (Prim2SF nan) with S754_nan.
  destruct (Prim2SF x); reflexivity.
Qed.

Lemma div_nan_l y : (nan / y)%float = nan.
Proof.
  apply nan_of_spec. rewrite div_spec.
  change (Prim2SF nan) with S754_nan. reflexivity.
Qed.

Lemma div_nan_r x : (x / nan)%float = nan.
Proof.
  apply nan_of_spec. rewrite div_spec.
  change (Prim2SF nan) with S754_nan.
  destruct (Prim2SF x); reflexivity.
Qed.

(** X8: the decoder fails in two ways only, and in this order: with
    [ZeroDivisionError] when the probe attenuation equals zero, otherwise
    with [OverflowError] when the reference does not fit an int64. An empty
    block, a negative or infinite scale and a NaN all go through. *)
Theorem decode_raises raw p vs pa e :
  decode raw p vs pa = Raise e <->
  (PrimFloat.eqb pa 0 = true /\ e = ZeroDivisionError) \/
  (PrimFloat.eqb pa 0 = false /\ in_int64 (x_reference p) = false /\
   e = OverflowError).
Proof.
  unfold decode, Py.truediv, time_axis.
  destruct (PrimFloat.eqb pa 0); destruct (in_int64 (x_reference p)); split;
    try (intros H; inversion H; auto; fail);
    try (intros [[H1 H2]|[H1 [H2 H3]]]; subst; try discriminate; reflexivity).
Qed.

(** X9: a NaN scale or a NaN probe attenuation (the replies "nan" convert to
    it) raises nothing: the decoder returns a voltage array that is NaN at
    every sample. *)
Theorem decode_nan raw p vs pa :
  PrimFloat.eqb pa 0 = false ->
  in_int64 (x_reference p) = true ->
  vs = nan \/ pa = nan ->
  to_float "nan" = Ok nan /\
  exists time,
    decode raw p vs pa = Ok (time, map (fun _ => nan) raw) /\
    List.length time = List.length raw.
Proof.
  intros Hpa Href Hnan. split; [reflexivity|].
  rewrite (decode_ok raw _ vs Hpa Href). eexists. split.
  - f_equal. f_equal. unfold voltages. apply map_ext. intros d. unfold volt.
    destruct Hnan as [-> | ->]; rewrite ?div_nan_l, ?div_nan_r; apply mul_nan_r.
  - now rewrite length_map, arange_length.
Qed.

Lemma mul_zero_l a : finite a = true -> PrimFloat.eqb (0 * a) 0 = true.
Proof.
  unfold finite. intros H. rewrite eqb_spec, mul_spec.
  change (Prim2SF 0) with (S754_zero false).
  destruct (Prim2SF a) as [sa|sa| |sa ma ea]; try discriminate; reflexivity.
Qed.

Lemma mul_zero_l_nan a : finite a = false -> (0 * a)%float = nan.
Proof.
  unfold finite. intros H. apply nan_of_spec. rewrite mul_spec.
  change (Prim2SF 0) with (S754_zero false).
  destruct (Prim2SF a) as [sa|sa| |sa ma ea]; try discriminate; reflexivity.
Qed.

(** X17: the code 130 is the zero level: whenever the decoder returns and
    the adjusted scale [vertical_scale / probe_attenuation] is finite, every
    sample equal to 130 decodes to a voltage equal to zero; when the
    adjusted scale is an infinity or a NaN such a sample decodes to NaN. *)
Theorem decode_zero_level raw p vs pa time voltage i :
  decode raw p vs pa = Ok (time, voltage) ->
  nth_error raw i = Some x82 ->
  exists v,
    nth_error voltage i = Some v /\
    (finite (vs / pa) = true -> PrimFloat.eqb v 0 = true) /\
    (finite (vs / pa) = false -> v = nan).
Proof.
  intros Hd Hi. revert Hd. unfold decode, Py.truediv.
  destruct (PrimFloat.eqb pa 0); [discriminate|].
  destruct (time_axis (List.length raw) p); [|discriminate].
  intros H. inversion H. subst. clear H.
  exists (volt (vs / pa) x82). split; [now apply voltages_nth|].
  unfold volt.
  change ((sample x82 - 130) / 25)%float with 0%float.
  split; [apply mul_zero_l | apply mul_zero_l_nan].
Qed.

(** ** Connecting and then disconnecting *)

Section Release.

Variable T : Transport.

Implicit Types s : state T.

Local Open Scope list_scope.

(** X10: on an object without a handle, a connect attempt followed by a
    disconnect. When the resource could not be opened the disconnect makes
    no call and returns. When it was opened, also when the identity query
    then failed, the object holds the handle and the disconnect calls close
    on it, once: when close returns the object ends without a handle, and
    when close raises the disconnect raises and the object keeps the
    handle. *)
Theorem connect_then_disconnect s :
  inst s = None ->
  (forall e, fst (open_resource T (resource_name s) (dev s)) = Raise e ->
     inst (snd (connect s)) = None /\
     calls (snd (connect s)) = calls s ++ [OpenResource (resource_name s)] /\
     disconnect (snd (connect s)) = (Ok VNone, snd (connect s))) /\
  (forall h, fst (open_resource T (resource_name s) (dev s)) = Ok h ->
     inst (snd (connect s)) = Some h /\
     calls (snd (disconnect (snd (connect s))))
       = calls s ++ [OpenResource (resource_name s); Query "*IDN?"; Close] /\
     dev (snd (disconnect (snd (connect s))))
       = snd (close T h (dev (snd (connect s)))) /\
     (forall u, fst (close T h (dev (snd (connect s)))) = Ok u ->
        fst (disconnect (snd (connect s))) = Ok VNone /\
        inst (snd (disconnect (snd (connect s)))) = None) /\
     (forall e, fst (close T h (dev (snd (connect s)))) = Raise e ->
        fst (disconnect (snd (connect s))) = Raise e /\
        inst (snd (disconnect (snd (connect s)))) = Some h)).
Proof.
  intros Hi.
  assert (C : forall h, fst (open_resource T (resource_name s) (dev s)) = Ok h ->
            inst (snd (connect s)) = Some h /\
            calls (snd (connect s))
              = calls s ++ [OpenResource (resource_name s); Query "*IDN?"]).
  { intros h. unfold connect, bind, rm_open_resource, assign_inst, inst_query.
    destruct (open_resource T (resource_name s) (dev s)) as [[h'|e0] d1]; simpl;
      [|discriminate].
    intros E. inversion E. subst h'.
    erewrite on_inst_some by reflexivity. simpl.
    destruct (query T h "*IDN?" d1) as [[idn|e1] d2]; simpl;
      rewrite <- !app_assoc; auto. }
  split.
  - intros e. unfold connect, bind, rm_open_resource.
    destruct (open_resource T (resource_name s) (dev s)) as [[h|e0] d1]; simpl;
      [discriminate|].
    intros _. split; [exact Hi|]. split; [reflexivity|].
    apply disconnect_none. exact Hi.
  - intros h E. destruct (C h E) as [Ci Cc].
    split; [exact Ci|].
    rewrite (disconnect_some _ Ci).
    destruct (close T h (dev (snd (connect s)))) as [[u|e] d]; simpl;
      rewrite Cc, <- !app_assoc; simpl.
    + split; [reflexivity|]. split; [reflexivity|].
      split; [auto | intros e E'; discriminate E'].
    + split; [reflexivity|]. split; [reflexivity|].
      split; [intros u E'; discriminate E'|].
      intros e' E'. inversion E'. subst. auto.
Qed.

End Release.

(** ** The slots of the window *)

Section WindowFacts.

Variable T : Transport.
Variable R : Render.
Variable Mpl : Plotting.

Implicit Types w : window T.

Local Open Scope list_scope.

Lemma sends_only_ret A (a : A) : sends_only (T := T) [] (wret a).
Proof.
  intros w r w' H. inversion H. subst. repeat split; auto.
  - exists 0%nat. simpl. now rewrite app_nil_r.
  - intros _. now rewrite app_nil_r.
Qed.

Lemma sends_only_to_channel text : sends_only (T := T) [] (to_channel text).
Proof.
  intros w r w' H. unfold to_channel in H.
  assert (w' = w) as -> by (destruct (Py.int_of_str text); now inversion H).
  repeat split; auto.
  - exists 0%nat. simpl. now rewrite app_nil_r.
  - intros _. now rewrite app_nil_r.
Qed.

Lemma sends_only_on_oscilloscope A l (m : M T A) :
  within l m -> sends_only l (on_oscilloscope m).
Proof.
  intros Hm w r w' H. unfold on_oscilloscope in H.
  destruct (oscilloscope w) as [[name i]|] eqn:E.
  - destruct (m (session (name, i) w)) as [r0 s] eqn:Em.
    inversion H. subst. destruct (Hm _ _ _ Em) as (N & I & P & F).
    simpl in N, I, P, F. simpl. rewrite N, I.
    repeat split; auto.
  - inversion H. subst. repeat split; auto.
    + exists 0%nat. simpl. now rewrite app_nil_r.
    + discriminate.
Qed.

Lemma sends_only_bind A B l1 l2 (m : W T A) (k : A -> W T B) :
  sends_only l1 m -> (forall a, sends_only l2 (k a)) ->
  sends_only (l1 ++ l2) (wbind m k).
Proof.
  intros Hm Hk w r w' H. unfold wbind in H.
  destruct (m w) as [[a|e] w1] eqn:E.
  - destruct (Hm _ _ _ E) as (A1 & A2 & A3 & A4 & A5 & A6 & A7 & A8 & _ & F1).
    destruct (Hk a _ _ _ H) as (B1 & B2 & B3 & B4 & B5 & B6 & B7 & B8 & (n & P2) & F2).
    specialize (F1 eq_refl).
    repeat split; try congruence.
    + exists (List.length l1 + n)%nat.
      rewrite firstn_app_2, P2, F1. now rewrite <- app_assoc.
    + intros Hr. rewrite (F2 Hr), F1. now rewrite <- app_assoc.
  - inversion H. subst.
    destruct (Hm _ _ _ E) as (A1 & A2 & A3 & A4 & A5 & A6 & A7 & A8 & (n & P1) & _).
    repeat split; auto.
    + destruct (firstn_prefix_app l1 l2 n) as (k' & Hk'). exists k'.
      now rewrite <- Hk'.
    + discriminate.
Qed.

Lemma within_set_channel ch :
  within [Write (":WAV:SOUR CHAN" ++ Py.str_int ch)] (set_channel (T := T) ch).
Proof.
  unfold set_channel, inst_write.
  match goal with |- within [?a] _ => change [a] with ([a] ++ []) end.
  eapply within_bind; [apply within_on_inst | intros ?; apply within_ret].
Qed.

Lemma within_set_timebase t :
  within [Write (":TIM:SCAL " ++ str_float R t)] (set_timebase (T := T) R t).
Proof.
  unfold set_timebase, inst_write.
  match goal with |- within [?a] _ => change [a] with ([a] ++ []) end.
  eapply within_bind; [apply within_on_inst | intros ?; apply within_ret].
Qed.

Lemma within_set_voltage_scale ch v :
  within [Write (":CHAN" ++ Py.str_int ch ++ ":SCAL " ++ str_float R v)]
    (set_voltage_scale (T := T) R ch v).
Proof.
  unfold set_voltage_scale, inst_write.
  match goal with |- within [?a] _ => change [a] with ([a] ++ []) end.
  eapply within_bind; [apply within_on_inst | intros ?; apply within_ret].
Qed.

(** The body of the [try] of [apply_settings], for the inputs [i]. *)
Lemma settings_body c src i :
  sends_only (T := T) (settings_calls R c i src)
    (wbind (on_oscilloscope (set_channel c)) (fun _ =>
     wbind (on_oscilloscope (set_timebase R (timebase_input i))) (fun _ =>
     wbind (on_oscilloscope (set_voltage_scale R c (voltage_input i))) (fun _ =>
     wbind (on_oscilloscope
              (set_trigger R (trigger_mode_select i) src
                 (slope_code (trigger_slope_select i)) (trigger_level_input i)))
           (fun _ => wret tt))))).
Proof.
  unfold settings_calls.
  match goal with |- sends_only [?a; ?b; ?c; ?d; ?e; ?f; ?g] _ =>
    change [a; b; c; d; e; f; g] with ([a] ++ [b] ++ [c] ++ [d; e; f; g] ++ [])
  end.
  eapply sends_only_bind;
    [apply sends_only_on_oscilloscope, within_set_channel | intros ?].
  eapply sends_only_bind;
    [apply sends_only_on_oscilloscope, within_set_timebase | intros ?].
  eapply sends_only_bind;
    [apply sends_only_on_oscilloscope, within_set_voltage_scale | intros ?].
  eapply sends_only_bind;
    [apply sends_only_on_oscilloscope, set_trigger_within | intros ?].
  apply sends_only_ret.
Qed.

Lemma app_one_neq A (l : list A) (x : A) : l ++ [x] <> l.
Proof.
  intros H. apply (f_equal (@List.length A)) in H.
  rewrite length_app in H. simpl in H. lia.
Qed.

Lemma apply_settings_run w :
  exists w',
    apply_settings R w = (Ok tt, w') /\
    oscilloscope w' = oscilloscope w /\ time w' = time w /\ voltage w' = voltage w /\
    panel w' = panel w /\ canvas w' = canvas w /\
    (oscilloscope w = None ->
       w' = shown (Warning "Warning" "Oscilloscope not connected.") w) /\
    (oscilloscope w <> None ->
       (dialogs w' = dialogs w \/
        exists e, dialogs w' = dialogs w ++ [Critical "Error" e]) /\
       (forall c src,
          Py.int_of_str (channel_select (widgets w)) = Some c ->
          Py.int_of_str (trigger_source_select (widgets w)) = Some src ->
          (exists n, sent w' = sent w ++ firstn n (settings_calls R c (widgets w) src)) /\
          (dialogs w' = dialogs w ->
           sent w' = sent w ++ settings_calls R c (widgets w) src)) /\
       (Py.int_of_str (channel_select (widgets w)) = None \/
        Py.int_of_str (trigger_source_select (widgets w)) = None ->
        sent w' = sent w /\ dialogs w' = dialogs w ++ [Critical "Error" ValueError])).
Proof.
  unfold apply_settings.
  destruct (oscilloscope w) as [o|] eqn:E.
  - unfold try_except. unfold wbind at 1. unfold to_channel at 1.
    destruct (Py.int_of_str (channel_select (widgets w))) as [c|] eqn:Ec.
    + cbv zeta. unfold wbind at 1. unfold to_channel at 1.
      destruct (Py.int_of_str (trigger_source_select (widgets w))) as [src|] eqn:Es.
      * match goal with |- context [let (_, _) := ?b w in _] =>
          destruct (b w) as [[u|e] w1] eqn:B
        end;
          pose proof (settings_body c src (widgets w)) as SB;
          destruct (SB _ _ _ B) as (A1 & A2 & A3 & A4 & A5 & A6 & A7 & A8 & P & F);
          clear SB.
        -- destruct u. eexists. split; [reflexivity|].
           split; [congruence|]. split; [exact A2|]. split; [exact A3|].
           split; [exact A6|]. split; [exact A7|].
           split; [intros H; discriminate H|]. intros _.
           split; [left; exact A8|]. split.
           ++ intros c0 src0 H1 H2. inversion H1. inversion H2. subst.
              split; [exact P|]. intros _. now apply F.
           ++ intros [H|H]; discriminate H.
        -- eexists. split; [reflexivity|]. simpl.
           split; [congruence|]. split; [exact A2|]. split; [exact A3|].
           split; [exact A6|]. split; [exact A7|].
           split; [intros H; discriminate H|]. intros _.
           split; [right; exists e; now rewrite A8|]. split.
           ++ intros c0 src0 H1 H2. inversion H1. inversion H2. subst.
              split; [exact P|]. intros Hd. rewrite A8 in Hd.
              elim (@app_one_neq _ _ _ Hd).
           ++ intros [H|H]; discriminate H.
      * eexists. split; [reflexivity|]. simpl.
        split; [congruence|]. do 4 (split; [reflexivity|]).
        split; [intros H; discriminate H|]. intros _.
        split; [right; now exists ValueError|]. split.
        -- intros c0 src0 _ H2. discriminate H2.
        -- intros _. auto.
    + eexists. split; [reflexivity|]. simpl.
      split; [congruence|]. do 4 (split; [reflexivity|]).
      split; [intros H; discriminate H|]. intros _.
      split; [right; now exists ValueError|]. split.
      * intros c0 src0 H1. discriminate H1.
      * intros _. auto.
  - eexists. split; [reflexivity|]. simpl.
    split; [exact E|]. do 4 (split; [reflexivity|]). split; [reflexivity|].
    intros H. now elim H.
Qed.

(** X11: applying the settings never lets an exception escape and changes
    nothing of the window but the dialogs and the world. Without an object
    it only shows the warning. With one, it sends the first few of its
    seven commands, in order (source, timebase, channel scale, trigger mode,
    trigger source, slope, level), where the slope is POS exactly when the
    slope text upper-cases to POSITIVE and NEG otherwise; all seven have
    been sent when no dialog was shown, and otherwise one error dialog
    reports the exception; a channel or trigger source text that is not an
    integer sends nothing and reports [ValueError]. *)
Theorem apply_settings_outcome w :
  exists w',
    apply_settings R w = (Ok tt, w') /\
    oscilloscope w' = oscilloscope w /\ time w' = time w /\ voltage w' = voltage w /\
    panel w' = panel w /\ canvas w' = canvas w /\
    (oscilloscope w = None ->
       w' = shown (Warning "Warning" "Oscilloscope not connected.") w) /\
    (oscilloscope w <> None ->
       (dialogs w' = dialogs w \/
        exists e, dialogs w' = dialogs w ++ [Critical "Error" e]) /\
       (forall c src,
          Py.int_of_str (channel_select (widgets w)) = Some c ->
          Py.int_of_str (trigger_source_select (widgets w)) = Some src ->
          (exists n, sent w' = sent w ++ firstn n (settings_calls R c (widgets w) src)) /\
          (dialogs w' = dialogs w ->
           sent w' = sent w ++ settings_calls R c (widgets w) src)) /\
       (Py.int_of_str (channel_select (widgets w)) = None \/
        Py.int_of_str (trigger_source_select (widgets w)) = None ->
        sent w' = sent w /\ dialogs w' = dialogs w ++ [Critical "Error" ValueError])).
Proof. exact (apply_settings_run w). Qed.


(** Reduces the projections of an updated window or session. *)
Ltac wsimpl :=
  cbn [oscilloscope time voltage waveform_color widgets panel canvas dialogs
       bus sent console shown after set_oscilloscope set_waveform set_panel
       drawn spoiled session resource_name inst dev calls stdout called printed
       set_inst fst snd].



Lemma connect_run_ok (s : state T) h d1 idn d2 :
  open_resource T (resource_name s) (dev s) = (Ok h, d1) ->
  query T h "*IDN?" d1 = (Ok idn, d2) ->
  connect s
    = (Ok VNone,
       printed ("Connected to " ++ idn)
         (called (Query "*IDN?") d2
            (set_inst (Some h) (called (OpenResource (resource_name s)) d1 s)))).
Proof.
  intros H1 H2. unfold connect, bind, rm_open_resource, assign_inst, inst_query.
  rewrite H1. simpl. erewrite on_inst_run by (cbn; first [eassumption | reflexivity]).
  reflexivity.
Qed.


(** X14: on a window that holds no object, a click on Connect whose
    constructor returns and whose
    resource opens and answers the identity query keeps the new object with
    its handle, sets the status line to "Status: Connected to" and the
    resource name, enables the four buttons, and then applies the settings:
    after the open and the identity query come the first few of the seven
    setting commands, all seven when no dialog was shown; a failure while
    applying the settings shows an "Error" dialog and leaves the status at
    connected. *)
Theorem connection_success w h d1 idn d2 c src :
  oscilloscope w = None ->
  resource_manager T (bus w) = Ok tt ->
  open_resource T (resource_input (widgets w)) (bus w) = (Ok h, d1) ->
  query T h "*IDN?" d1 = (Ok idn, d2) ->
  Py.int_of_str (channel_select (widgets w)) = Some c ->
  Py.int_of_str (trigger_source_select (widgets w)) = Some src ->
  exists w',
    connect_oscilloscope R w = (Ok tt, w') /\
    oscilloscope w' = Some (resource_input (widgets w), Some h) /\
    panel w'
      = {| status_label := "Status: Connected to " ++ resource_input (widgets w);
           disconnect_button := true; apply_settings_button := true;
           get_data_button := true; color_button := true |} /\
    time w' = time w /\ voltage w' = voltage w /\ canvas w' = canvas w /\
    (dialogs w' = dialogs w \/
     exists e, dialogs w' = dialogs w ++ [Critical "Error" e]) /\
    (exists n,
       sent w' = sent w
                 ++ [OpenResource (resource_input (widgets w)); Query "*IDN?"]
                 ++ firstn n (settings_calls R c (widgets w) src)) /\
    (dialogs w' = dialogs w ->
     sent w' = sent w
               ++ [OpenResource (resource_input (widgets w)); Query "*IDN?"]
               ++ settings_calls R c (widgets w) src).
Proof.
  intros _ Hm Ho Hq Hc Hs.
  unfold connect_oscilloscope, try_except.
  cbv zeta. unfold wbind at 1. unfold new_oscilloscope at 1. rewrite Hm.
  unfold wbind at 1. unfold on_oscilloscope at 1. wsimpl.
  erewrite connect_run_ok by (cbn; eassumption).
  unfold wbind at 1. unfold update at 1.
  unfold wbind at 1. unfold update at 1.
  match goal with |- context [apply_settings R ?w3] =>
    destruct (apply_settings_run w3)
      as (w' & E & A1 & A2 & A3 & A4 & A5 & _ & A7)
  end.
  rewrite E. exists w'. split; [reflexivity|].
  revert A1 A2 A3 A4 A5 A7. wsimpl. intros A1 A2 A3 A4 A5 A7.
  destruct (A7 ltac:(discriminate)) as (D & S & _).
  destruct (S c src Hc Hs) as ((n & P) & F).
  split; [exact A1|]. split; [exact A4|]. split; [exact A2|].
  split; [exact A3|]. split; [exact A5|]. split; [exact D|]. split.
  - exists n. rewrite P. now rewrite <- !app_assoc.
  - intros Hd. rewrite (F Hd). now rewrite <- !app_assoc.
Qed.

(** X15: a click on Disconnect does nothing on a window without an object.
    With an object that has no handle it drops the object and sets the
    status line to "Status: Disconnected" without a call. With an object
    that holds a handle it calls close: when close returns, the object is
    dropped and the status line set likewise; the four buttons stay as they
    were and the stored waveform and the canvas are kept; after it, Apply
    Settings and Get Waveform only show the warning. When close raises, the
    exception escapes the slot, which has no [try]: the window keeps the
    object with its handle, and the status line is not changed. *)
Theorem disconnect_oscilloscope_outcome w :
  (oscilloscope w = None -> disconnect_oscilloscope w = (Ok tt, w)) /\
  (forall name i,
     oscilloscope w = Some (name, i) ->
     (i = None \/ exists h u d, i = Some h /\ close T h (bus w) = (Ok u, d)) ->
     exists w',
       disconnect_oscilloscope w = (Ok tt, w') /\
       oscilloscope w' = None /\
       panel w' = with_status "Status: Disconnected" (panel w) /\
       time w' = time w /\ voltage w' = voltage w /\ canvas w' = canvas w /\
       dialogs w' = dialogs w /\
       sent w' = sent w ++ match i with Some _ => [Close] | None => [] end /\
       apply_settings R w'
         = (Ok tt, shown (Warning "Warning" "Oscilloscope not connected.") w') /\
       window_get_waveform R Mpl w'
         = (Ok tt, shown (Warning "Warning" "Oscilloscope not connected.") w')) /\
  (forall name h e d,
     oscilloscope w = Some (name, Some h) ->
     close T h (bus w) = (Raise e, d) ->
     exists w',
       disconnect_oscilloscope w = (Raise e, w') /\
       oscilloscope w' = Some (name, Some h) /\
       panel w' = panel w /\
       time w' = time w /\ voltage w' = voltage w /\ canvas w' = canvas w /\
       dialogs w' = dialogs w /\ console w' = console w /\
       sent w' = sent w ++ [Close]).
Proof.
  split; [|split].
  - intros E. unfold disconnect_oscilloscope. now rewrite E.
  - intros name i E Hi. unfold disconnect_oscilloscope. rewrite E.
    unfold wbind at 1. unfold on_oscilloscope at 1. rewrite E.
    destruct Hi as [->|(h & u & d & -> & C)].
    + rewrite disconnect_none by reflexivity. unfold wbind, update. wsimpl.
      eexists. split; [reflexivity|]. wsimpl.
      split; [reflexivity|]. split; [reflexivity|]. split; [reflexivity|].
      split; [reflexivity|]. split; [reflexivity|]. split; [reflexivity|].
      split; [now rewrite app_nil_r|]. split; reflexivity.
    + erewrite disconnect_some by reflexivity. wsimpl. rewrite C.
      unfold wbind, update. wsimpl.
      eexists. split; [reflexivity|]. wsimpl.
      split; [reflexivity|]. split; [reflexivity|]. split; [reflexivity|].
      split; [reflexivity|]. split; [reflexivity|]. split; [reflexivity|].
      split; [reflexivity|]. split; reflexivity.
  - intros name h e d E C. unfold disconnect_oscilloscope. rewrite E.
    unfold wbind at 1. unfold on_oscilloscope at 1. rewrite E.
    erewrite disconnect_some by reflexivity. wsimpl. rewrite C.
    eexists. split; [reflexivity|]. wsimpl.
    split; [reflexivity|]. split; [reflexivity|]. split; [reflexivity|].
    split; [reflexivity|]. split; [reflexivity|]. split; [reflexivity|].
    split; reflexivity.
Qed.

(** X16: the three slots whose body is a [try], Connect, Apply Settings and
    Get Waveform, return on every window, whatever the transport and
    matplotlib do. Disconnect has no [try]: it raises exactly when the
    object holds a handle whose close raises, with that exception. *)
Theorem guarded_slots_return w :
  fst (connect_oscilloscope R w) = Ok tt /\
  fst (apply_settings R w) = Ok tt /\
  fst (window_get_waveform R Mpl w) = Ok tt /\
  (forall e,
     fst (disconnect_oscilloscope w) = Raise e <->
     exists name h,
       oscilloscope w = Some (name, Some h) /\
       fst (close T h (bus w)) = Raise e).
Proof.
  split; [|split; [|split]].
  - unfold connect_oscilloscope, try_except. cbv zeta.
    match goal with |- context [let (_, _) := ?b w in _] =>
      destruct (b w) as [[u|e] w1] eqn:B
    end; [|reflexivity].
    destruct u. reflexivity.
  - destruct (apply_settings_run w) as (w' & E & _). now rewrite E.
  - unfold window_get_waveform.
    destruct (oscilloscope w); [|reflexivity].
    unfold try_except.
    match goal with |- context [let (_, _) := ?b w in _] =>
      destruct (b w) as [[u|e] w1] eqn:B
    end; [|reflexivity].
    destruct u. reflexivity.
  - intros e. unfold disconnect_oscilloscope.
    destruct (oscilloscope w) as [[name [h|]]|] eqn:E.
    + unfold wbind at 1. unfold on_oscilloscope at 1. rewrite E.
      erewrite disconnect_some by reflexivity. wsimpl.
      destruct (close T h (bus w)) as [[u|e0] d] eqn:C.
      * split; [discriminate|].
        intros (name' & h' & E' & C'). inversion E'. subst.
        rewrite C in C'. discriminate C'.
      * simpl. split.
        -- intros H. inversion H. subst. exists name, h. now rewrite C.
        -- intros (name' & h' & E' & C'). inversion E'. subst.
           rewrite C in C'. simpl in C'. exact C'.
    + unfold wbind at 1. unfold on_oscilloscope at 1. rewrite E.
      rewrite disconnect_none by reflexivity.
      split; [discriminate|]. intros (name' & h' & E' & _). discriminate E'.
    + split; [discriminate|]. intros (name' & h' & E' & _). discriminate E'.
Qed.

End WindowFacts.

(** ** The further properties on the bench *)

Lemma get_waveform_prefix_witness :
  fst (get_waveform Bench.render 1
         (Bench.connected (Bench.with_preamble "0,0,3" Bench.scope)))
    = Raise ValueError /\
  exists n,
    calls (snd (get_waveform Bench.render 1
                  (Bench.connected (Bench.with_preamble "0,0,3" Bench.scope))))
    = (calls (Bench.connected (Bench.with_preamble "0,0,3" Bench.scope))
       ++ firstn n (waveform_calls 1))%list.
Proof.
  split; [vm_compute; reflexivity|].
  apply (@get_waveform_prefix Bench.transport Bench.render 1
           (Bench.connected (Bench.with_preamble "0,0,3" Bench.scope))
           (fst (get_waveform Bench.render 1
                   (Bench.connected (Bench.with_preamble "0,0,3" Bench.scope))))
           (snd (get_waveform Bench.render 1
                   (Bench.connected (Bench.with_preamble "0,0,3" Bench.scope))))
           (surjective_pairing _)).
Defined.

Lemma set_trigger_prefix_witness :
  fst (set_trigger Bench.render "EDGE" 1 "POS" 0.5
         (Bench.connected (Bench.mute Bench.scope)))
    = Raise (VisaIOError Bench.VI_ERROR_TMO) /\
  exists n,
    calls (snd (set_trigger Bench.render "EDGE" 1 "POS" 0.5
                  (Bench.connected (Bench.mute Bench.scope))))
    = (calls (Bench.connected (Bench.mute Bench.scope))
       ++ firstn n (trigger_calls Bench.render "EDGE" 1 "POS" 0.5))%list /\
    (inst (Bench.connected (Bench.mute Bench.scope)) <> None -> (1 <= n)%nat).
Proof.
  split; [vm_compute; reflexivity|].
  apply (@set_trigger_prefix Bench.transport Bench.render "EDGE" 1 "POS" 0.5%float
           (Bench.connected (Bench.mute Bench.scope))
           (fst (set_trigger Bench.render "EDGE" 1 "POS" 0.5
                   (Bench.connected (Bench.mute Bench.scope))))
           (snd (set_trigger Bench.render "EDGE" 1 "POS" 0.5
                   (Bench.connected (Bench.mute Bench.scope))))
           (surjective_pairing _)).
Defined.


Lemma decode_reads_x_fields_witness :
  decode (map Bench.u8 [130; 155; 105]%N) Bench.header 1.0 1.0
  = decode (map Bench.u8 [130; 155; 105]%N)
      {| format_code := "9"; type_code := "9"; points := "many"; count := "x";
         x_increment := 1e-6; x_origin := 0; x_reference := 0;
         y_increment := 1; y_origin := 2; y_reference := 3 |} 1.0 1.0.
Proof.
  apply (@decode_reads_x_fields
           ["0"; "0"; "3"; "1"; "1e-6"; "0"; "0"; "0.04"; "0"; "127"]
           ["9"; "9"; "many"; "x"; "1e-6"; "0"; "0"; "1"; "2"; "3"]).
  - vm_compute. reflexivity.
  - vm_compute. reflexivity.
  - intros i Hi.
    destruct i as [|[|[|[|[|[|[|i]]]]]]]; try lia; reflexivity.
Defined.

Lemma preamble_fields_split_witness :
  List.length (preamble_fields "0,0,3,1,1e-6,0,0") = 7%nat /\
  parse_preamble (preamble_fields "0,0,3,1,1e-6,0,0") = Raise ValueError.
Proof.
  destruct (preamble_fields_split "0,0,3,1,1e-6,0,0") as (L & _ & _ & P).
  split; [exact L|]. apply P. vm_compute. repeat constructor.
Defined.

Lemma decode_nan_witness :
  exists time,
    decode (map Bench.u8 [130; 155; 105]%N) Bench.header 1.0 nan
      = Ok (time, [nan; nan; nan]) /\
    List.length time = 3%nat.
Proof.
  apply (@decode_nan (map Bench.u8 [130; 155; 105]%N) Bench.header 1.0%float nan
           eq_refl eq_refl (or_intror eq_refl)).
Defined.

Lemma connect_then_disconnect_witness :
  inst (snd (disconnect (snd (connect (Bench.fresh (Bench.mute Bench.scope))))))
    = None /\
  calls (snd (disconnect (snd (connect (Bench.fresh (Bench.mute Bench.scope))))))
    = [OpenResource Bench.address; Query "*IDN?"; Close] /\
  fst (disconnect (snd (connect (init Bench.jammed Bench.address Bench.scope))))
    = Raise (VisaIOError Bench.VI_ERROR_CLOSING_FAILED) /\
  inst (snd (disconnect (snd (connect (init Bench.jammed Bench.address Bench.scope)))))
    = Some tt.
Proof.
  destruct (@connect_then_disconnect Bench.transport
              (Bench.fresh (Bench.mute Bench.scope)) eq_refl)
    as (_ & Hopen).
  destruct (Hopen tt eq_refl) as (_ & Hc & _ & Hok & _).
  destruct (@connect_then_disconnect Bench.jammed
              (init Bench.jammed Bench.address Bench.scope) eq_refl)
    as (_ & Hjam).
  destruct (Hjam tt eq_refl) as (_ & _ & _ & _ & Hraise).
  split; [exact (proj2 (Hok tt eq_refl))|]. split; [exact Hc|].
  exact (Hraise (VisaIOError Bench.VI_ERROR_CLOSING_FAILED) eq_refl).
Defined.

Lemma apply_settings_outcome_witness :
  dialogs (snd (apply_settings Bench.render (Desk.connected Bench.scope))) = [] /\
  sent (snd (apply_settings Bench.render (Desk.connected Bench.scope)))
    = (sent (Desk.connected Bench.scope)
       ++ settings_calls Bench.render 1 (widgets (Desk.connected Bench.scope)) 1)%list.
Proof.
  destruct (@apply_settings_outcome Bench.transport Bench.render
              (Desk.connected Bench.scope))
    as (w' & E & _ & _ & _ & _ & _ & _ & A).
  assert (Hw : w' = snd (apply_settings Bench.render (Desk.connected Bench.scope)))
    by (rewrite E; reflexivity).
  assert (Hd : dialogs w' = dialogs (Desk.connected Bench.scope))
    by (rewrite Hw; vm_compute; reflexivity).
  destruct (A ltac:(discriminate)) as (_ & S & _).
  destruct (S 1 1 eq_refl eq_refl) as (_ & F).
  rewrite <- Hw. split; [exact Hd | exact (F Hd)].
Defined.



Lemma connection_success_witness :
  exists w',
    connect_oscilloscope Bench.render (Desk.opened Bench.scope) = (Ok tt, w') /\
    oscilloscope w' = Some (resource_input (widgets (Desk.opened Bench.scope)), Some tt) /\
    status_label (panel w')
      = "Status: Connected to USB0::0x1AB1::0x0517::DS1ZE242906834::INSTR".
Proof.
  destruct (@connection_success Bench.transport Bench.render (Desk.opened Bench.scope)
              tt (Bench.opened Bench.scope)
              "RIGOL TECHNOLOGIES,DS1054Z,DS1ZA000000000,00.04.04"
              (Bench.opened Bench.scope) 1 1
              eq_refl eq_refl eq_refl eq_refl eq_refl eq_refl)
    as (w' & E & Ho & Hp & _).
  exists w'. split; [exact E|]. split; [exact Ho|]. rewrite Hp. reflexivity.
Defined.

Lemma disconnect_oscilloscope_outcome_witness :
  (exists w',
     disconnect_oscilloscope (Desk.connected Bench.scope) = (Ok tt, w') /\
     oscilloscope w' = None /\
     get_data_button (panel w') = true /\
     window_get_waveform Bench.render Desk.matplotlib w'
       = (Ok tt, shown (Warning "Warning" "Oscilloscope not connected.") w')) /\
  (exists w',
     disconnect_oscilloscope
       (snd (connect_oscilloscope Bench.render (main_window Bench.jammed Bench.scope)))
       = (Raise (VisaIOError Bench.VI_ERROR_CLOSING_FAILED), w') /\
     oscilloscope w' = Some ("USB0::0x1AB1::0x0517::DS1ZE242906834::INSTR", Some tt) /\
     status_label (panel w')
       = "Status: Connected to USB0::0x1AB1::0x0517::DS1ZE242906834::INSTR").
Proof.
  split.
  - destruct (proj1 (proj2 (@disconnect_oscilloscope_outcome Bench.transport
                              Bench.render Desk.matplotlib
                              (Desk.connected Bench.scope)))
                "USB0::0x1AB1::0x0517::DS1ZE242906834::INSTR" (Some tt) eq_refl
                (or_intror
                   (ex_intro _ tt
                      (ex_intro _ tt
                         (ex_intro _ (Bench.closed (bus (Desk.connected Bench.scope)))
                            (conj eq_refl eq_refl))))))
      as (w' & E & Ho & Hp & _ & _ & _ & _ & _ & _ & Hg).
    exists w'. split; [exact E|]. split; [exact Ho|]. split; [|exact Hg].
    rewrite Hp. reflexivity.
  - destruct (proj2 (proj2 (@disconnect_oscilloscope_outcome Bench.jammed
                              Bench.render Desk.matplotlib
                              (snd (connect_oscilloscope Bench.render
                                      (main_window Bench.jammed Bench.scope)))))
                "USB0::0x1AB1::0x0517::DS1ZE242906834::INSTR" tt
                (VisaIOError Bench.VI_ERROR_CLOSING_FAILED)
                (bus (snd (connect_oscilloscope Bench.render
                             (main_window Bench.jammed Bench.scope))))
                eq_refl eq_refl)
      as (w' & E & Ho & Hp & _).
    exists w'. split; [exact E|]. split; [exact Ho|]. rewrite Hp. reflexivity.
Defined.

Lemma decode_zero_level_witness :
  exists v,
    nth_error [0.0; 1.0; -1.0]%float 0 = Some v /\
    (finite (1.0 / 1.0) = true -> PrimFloat.eqb v 0 = true) /\
    (finite (1.0 / 1.0) = false -> v = nan).
Proof.
  apply (@decode_zero_level (map Bench.u8 [130; 155; 105]%N) Bench.header
           1.0%float 1.0%float [0.0; 1e-6; 2e-6]%float [0.0; 1.0; -1.0]%float 0%nat);
    vm_compute; reflexivity.
Defined.
